(** * transformer.task: request-to-call-expression transformation

    A shallow embedding of [transformer/task.py] together with the small
    part of the Python runtime it relies on (strings as code-point
    sequences, [repr], UTF-8 encoding, dictionaries in insertion order,
    exceptions with classes and causes), followed by theorems about the
    payload interpreter, the call-expression builder, both task models
    and the collection pipeline. *)

From Stdlib Require Import List ZArith NArith String Ascii Bool Lia.
From Stdlib Require Import Permutation Sorting.Sorted.
Import ListNotations.

Set Implicit Arguments.
Set Warnings "-register-all".

(** ** Python strings and bytes *)

(** A Python [str] is a sequence of Unicode code points. *)
Definition codepoint := N.
Definition pystr := list codepoint.

(** A Python [bytes] object. *)
Definition pybytes := list Byte.byte.

(** Source-code string constants are written as Rocq strings. *)
Definition pystr_of (s : string) : pystr :=
  map N_of_ascii (list_ascii_of_string s).

Fixpoint pystr_eqb (a b : pystr) : bool :=
  match a, b with
  | [], [] => true
  | x :: a', y :: b' => (x =? y)%N && pystr_eqb a' b'
  | _, _ => false
  end.

(** [s.startswith(prefix)] *)
Fixpoint str_startswith (s prefix : pystr) : bool :=
  match prefix, s with
  | [], _ => true
  | p :: prefix', c :: s' => (c =? p)%N && str_startswith s' prefix'
  | _ :: _, [] => false
  end.

(** [s[a:-1]] for a non-negative [a]: drop the last item, then the first
    [a] items; out-of-range bounds saturate as Python slices do. *)
Definition slice_to_last (a : nat) (s : pystr) : pystr :=
  skipn a (removelast s).

(** [s.lower()] on the ASCII range, which is all that enum member names
    use. *)
Definition str_lower (s : pystr) : pystr :=
  map (fun c => if (65 <=? c)%N && (c <=? 90)%N then (c + 32)%N else c) s.

(** *** UTF-8 encoding: [s.encode()] *)

Definition b8 (n : N) : Byte.byte :=
  match Byte.of_N (n mod 256) with
  | Some b => b
  | None => Byte.x00
  end.

(** One code point; lone surrogates cannot be encoded. *)
Definition utf8_encode_char (c : codepoint) : option pybytes :=
  if (c <? 0x80)%N then Some [b8 c]
  else if (c <? 0x800)%N then
    Some [b8 (N.lor 0xC0 (N.shiftr c 6)); b8 (N.lor 0x80 (N.land c 0x3F))]
  else if (c <? 0x10000)%N then
    if (0xD800 <=? c)%N && (c <=? 0xDFFF)%N then None
    else Some [b8 (N.lor 0xE0 (N.shiftr c 12));
               b8 (N.lor 0x80 (N.land (N.shiftr c 6) 0x3F));
               b8 (N.lor 0x80 (N.land c 0x3F))]
  else
    Some [b8 (N.lor 0xF0 (N.shiftr c 18));
          b8 (N.lor 0x80 (N.land (N.shiftr c 12) 0x3F));
          b8 (N.lor 0x80 (N.land (N.shiftr c 6) 0x3F));
          b8 (N.lor 0x80 (N.land c 0x3F))].

Fixpoint utf8_encode (s : pystr) : option pybytes :=
  match s with
  | [] => Some []
  | c :: s' =>
      match utf8_encode_char c, utf8_encode s' with
      | Some bs, Some rest => Some (bs ++ rest)
      | _, _ => None
      end
  end.

(** *** [repr] of a string *)

Section StrRepr.

(** Printability of a non-ASCII code point ([str.isprintable] on one
    character), a table of the Unicode database. *)
Variable unicode_printable : codepoint -> bool.

Definition hex_digit (n : N) : codepoint :=
  if (n <? 10)%N then (48 + n)%N else (87 + n)%N.

(** [width] lowercase hexadecimal digits, most significant first. *)
Fixpoint hex_fixed (width : nat) (n : N) : pystr :=
  match width with
  | O => []
  | S w => hex_fixed w (n / 16)%N ++ [hex_digit (n mod 16)%N]
  end.

Definition BACKSLASH : codepoint := 92%N.
Definition SQUOTE : codepoint := 39%N.
Definition DQUOTE : codepoint := 34%N.

(** The text [repr] emits for one character, given the delimiter. *)
Definition repr_char (quote c : codepoint) : pystr :=
  if (c =? quote)%N || (c =? BACKSLASH)%N then [BACKSLASH; c]
  else if (c =? 9)%N then [BACKSLASH; 116%N]
  else if (c =? 10)%N then [BACKSLASH; 110%N]
  else if (c =? 13)%N then [BACKSLASH; 114%N]
  else if (c <? 32)%N || (c =? 127)%N then
    BACKSLASH :: 120%N :: hex_fixed 2 c
  else if (c <? 127)%N then [c]
  else if unicode_printable c then [c]
  else if (c <=? 0xff)%N then BACKSLASH :: 120%N :: hex_fixed 2 c
  else if (c <=? 0xffff)%N then BACKSLASH :: 117%N :: hex_fixed 4 c
  else BACKSLASH :: 85%N :: hex_fixed 8 c.

Definition str_contains (c : codepoint) (s : pystr) : bool :=
  existsb (fun x => (x =? c)%N) s.

(** Double quotes are chosen only when the text has a single quote
    and no double quote. *)
Definition repr_quote (s : pystr) : codepoint :=
  if str_contains SQUOTE s && negb (str_contains DQUOTE s)
  then DQUOTE else SQUOTE.

Definition str_repr (s : pystr) : pystr :=
  let q := repr_quote s in
  q :: flat_map (repr_char q) s ++ [q].

(** A character that [repr] copies unchanged under delimiter [q]. *)
Definition char_plain (q c : codepoint) : bool :=
  negb ((c =? q)%N || (c =? BACKSLASH)%N)
  && (32 <=? c)%N
  && negb (c =? 127)%N
  && ((c <? 127)%N || unicode_printable c).

(** A text whose [repr] is the text between two delimiters. *)
Definition repr_verbatim (s : pystr) : bool :=
  forallb (char_plain (repr_quote s)) s.

End StrRepr.

(** ** Python values, dictionaries and exceptions *)

(** The dynamically typed values this module handles: what a JSON
    document decodes to, plus [bytes] and tuples, which the payload
    interpreter produces. A float is kept as its binary64 bit pattern;
    nothing here inspects it. *)
Inductive PyVal : Type :=
| VNone
| VBool (b : bool)
| VInt (z : Z)
| VFloat (bits : N)
| VStr (s : pystr)
| VBytes (b : pybytes)
| VList (items : list PyVal)
| VTuple (items : list PyVal)
| VDict (items : list (pystr * PyVal)).

(** A [dict] (and an [OrderedDict]) with string keys, in insertion
    order; keys are unique and the first binding of a key is the
    binding. *)
Definition dict (V : Type) := list (pystr * V).

Fixpoint dict_lookup {V} (k : pystr) (d : dict V) : option V :=
  match d with
  | [] => None
  | (k', v) :: d' => if pystr_eqb k' k then Some v else dict_lookup k d'
  end.

(** [k in d] *)
Definition dict_contains {V} (k : pystr) (d : dict V) : bool :=
  match dict_lookup k d with
  | Some _ => true
  | None => false
  end.

(** [d[k] = v]: an existing key keeps its position. *)
Fixpoint dict_set {V} (k : pystr) (v : V) (d : dict V) : dict V :=
  match d with
  | [] => [(k, v)]
  | (k', v') :: d' =>
      if pystr_eqb k' k then (k', v) :: d' else (k', v') :: dict_set k v d'
  end.

(** [d.update(other)], and [{**d, **other}] when [d] is fresh. *)
Definition dict_update {V} (d other : dict V) : dict V :=
  fold_left (fun acc kv => dict_set (fst kv) (snd kv) acc) other d.

(** [d.setdefault(k, v)], the dictionary afterwards. *)
Definition dict_setdefault {V} (k : pystr) (v : V) (d : dict V) : dict V :=
  if dict_contains k d then d else dict_set k v d.

Definition dict_keys {V} (d : dict V) : list pystr := map fst d.

(** [d.get(k)] on a dictionary of Python values: [None] when absent. *)
Definition dict_get (k : pystr) (d : dict PyVal) : PyVal :=
  match dict_lookup k d with
  | Some v => v
  | None => VNone
  end.

(** *** transformer.request, as far as this module uses it *)

(** Modelled from the spec: [transformer.request.HttpMethod], whose
    declaration is not part of this module; section 3 calls it a closed
    enumeration containing GET, POST, PUT, OPTIONS, DELETE and further
    verbs.  The further verbs are taken to be the remaining standard
    ones. *)
Inductive HttpMethod : Type :=
| GET | POST | PUT | OPTIONS | DELETE | PATCH | HEAD | TRACE | CONNECT.

(** [m.name] *)
Definition HttpMethod_name (m : HttpMethod) : pystr :=
  pystr_of match m with
           | GET => "GET" | POST => "POST" | PUT => "PUT"
           | OPTIONS => "OPTIONS" | DELETE => "DELETE" | PATCH => "PATCH"
           | HEAD => "HEAD" | TRACE => "TRACE" | CONNECT => "CONNECT"
           end.

Definition HttpMethod_eqb (a b : HttpMethod) : bool :=
  match a, b with
  | GET, GET | POST, POST | PUT, PUT | OPTIONS, OPTIONS | DELETE, DELETE
  | PATCH, PATCH | HEAD, HEAD | TRACE, TRACE | CONNECT, CONNECT => true
  | _, _ => false
  end.

(** *** Exceptions *)

Inductive ExnClass : Type :=
| ValueError | JSONDecodeError | UnicodeEncodeError
| KeyError | TypeError | AttributeError | RecursionError.

(** [issubclass(c, parent)] in the built-in hierarchy: JSON decode
    errors and Unicode encode errors are value errors. *)
Definition issubclass (c parent : ExnClass) : bool :=
  match c, parent with
  | ValueError, ValueError
  | JSONDecodeError, JSONDecodeError | JSONDecodeError, ValueError
  | UnicodeEncodeError, UnicodeEncodeError | UnicodeEncodeError, ValueError
  | KeyError, KeyError | TypeError, TypeError
  | AttributeError, AttributeError | RecursionError, RecursionError => true
  | _, _ => false
  end.

(** A message is kept as the parts of the f-string that builds it: fixed
    text, and objects interpolated with [!r]. *)
Inductive MsgPart : Type :=
| Txt (s : string)
| Repr (v : PyVal)
| ReprMethod (m : HttpMethod).

(** An exception object: class, message, and [__cause__] as set by
    [raise ... from]. *)
Inductive Exn : Type :=
| MkExn (cls : ExnClass) (msg : list MsgPart) (cause : option Exn).

Definition exn_class (e : Exn) : ExnClass :=
  match e with MkExn c _ _ => c end.
Definition exn_msg (e : Exn) : list MsgPart :=
  match e with MkExn _ m _ => m end.
Definition exn_cause (e : Exn) : option Exn :=
  match e with MkExn _ _ c => c end.

(** [isinstance(e, cls)] *)
Definition isinstance (e : Exn) (cls : ExnClass) : bool :=
  issubclass (exn_class e) cls.

(** A computation that returns a value or raises. *)
Inductive result (A : Type) : Type :=
| Ok (a : A)
| Raise (e : Exn).
Arguments Ok {A} a.
Arguments Raise {A} e.

Definition bind {A B} (c : result A) (k : A -> result B) : result B :=
  match c with
  | Ok a => k a
  | Raise e => Raise e
  end.

Notation "x <- c ;; k" := (bind c (fun x => k))
  (at level 61, c at next level, right associativity).

(** [try: c  except classes as err: handler err] *)
Definition try_except {A} (c : result A) (classes : list ExnClass)
    (handler : Exn -> result A) : result A :=
  match c with
  | Ok a => Ok a
  | Raise e => if existsb (isinstance e) classes then handler e else Raise e
  end.

(** The same text for every key. *)
Definition repr_key (k : string) : MsgPart := Repr (VStr (pystr_of k)).

(** [v[k]] with a string subscript. *)
Definition py_getitem (v : PyVal) (k : pystr) : result PyVal :=
  match v with
  | VDict items =>
      match dict_lookup k items with
      | Some x => Ok x
      | None => Raise (MkExn KeyError [Repr (VStr k)] None)
      end
  | VList _ | VTuple _ =>
      Raise (MkExn TypeError [Txt "indices must be integers or slices, not str"] None)
  | VStr _ =>
      Raise (MkExn TypeError [Txt "string indices must be integers, not 'str'"] None)
  | VBytes _ =>
      Raise (MkExn TypeError [Txt "byte indices must be integers or slices, not str"] None)
  | VNone | VBool _ | VInt _ | VFloat _ =>
      Raise (MkExn TypeError [Txt "object is not subscriptable"] None)
  end.

(** [v.encode()]: only a [str] has the method. *)
Definition py_encode (v : PyVal) : result pybytes :=
  match v with
  | VStr s =>
      match utf8_encode s with
      | Some b => Ok b
      | None =>
          Raise (MkExn UnicodeEncodeError
                   [Txt "'utf-8' codec can't encode: surrogates not allowed"] None)
      end
  | _ => Raise (MkExn AttributeError [Txt "object has no attribute 'encode'"] None)
  end.

(** [v == s] for a string [s]. *)
Definition py_eq_str (v : PyVal) (s : pystr) : bool :=
  match v with
  | VStr t => pystr_eqb t s
  | _ => false
  end.

(** [v is None] *)
Definition is_none (v : PyVal) : bool :=
  match v with
  | VNone => true
  | _ => false
  end.

(** An argument handed to [list(...)]: a sequence, or the [Ellipsis]
    object. *)
Inductive SeqArg (A : Type) : Type :=
| SeqOf (items : list A)
| EllipsisObj.
Arguments SeqOf {A} items.
Arguments EllipsisObj {A}.

(** [list(x)] *)
Definition py_list {A} (x : SeqArg A) : result (list A) :=
  match x with
  | SeqOf items => Ok items
  | EllipsisObj =>
      Raise (MkExn TypeError [Txt "'ellipsis' object is not iterable"] None)
  end.

(** [sorted(xs, key=key)] for integer keys.  Python's sort is stable, and
    a stable sort has one possible result, which insertion from the
    right computes. *)
Fixpoint sorted_insert {A} (key : A -> Z) (x : A) (l : list A) : list A :=
  match l with
  | [] => [x]
  | y :: l' =>
      if (key x <=? key y)%Z then x :: l else y :: sorted_insert key x l'
  end.

Definition sorted {A} (l : list A) (key : A -> Z) : list A :=
  fold_right (sorted_insert key) [] l.

(** Modelled from the spec: the records of [transformer.request], whose
    declarations are not part of this module.  Section 3 gives a Request
    a method, a target URL, headers, a raw payload descriptor, ordered
    query pairs and a capture timestamp; of the URL this module reads the
    origin host ([netloc]) and the full text ([geturl()]).  The timestamp
    only has to be orderable and is taken to be an integer. *)
Module QueryPair.
Record t : Type := { name : pystr; value : pystr }.
End QueryPair.

Module Header.
Record t : Type := { name : pystr; value : pystr }.
End Header.

Module SplitResult.
Record t : Type := { netloc : pystr; geturl : pystr }.
End SplitResult.

Module Request.
Record t : Type := {
  timestamp : Z;
  method : HttpMethod;
  url : SplitResult.t;
  headers : list Header.t;
  post_data : dict PyVal;
  query : list QueryPair.t
}.
End Request.

(** ** transformer.task *)

Definition TIMEOUT : Z := 30.
Definition JSON_MIME_TYPE : pystr := pystr_of "application/json".

(** All parameters for the request performed by the Locust client
    object. *)
Module LocustRequest.
Record t : Type := {
  method : HttpMethod;
  url : pystr;
  headers : dict pystr;
  post_data : dict PyVal;
  query : list QueryPair.t
}.
End LocustRequest.

(** One step of doing something on a website (the legacy model). *)
Module Task.
Record t : Type := {
  name : pystr;
  request : Request.t;
  locust_request : option LocustRequest.t;
  locust_preprocessing : list pystr;
  locust_postprocessing : list pystr;
  global_code_blocks : dict (list pystr)
}.
End Task.

(** *** transformer.python, as far as this module uses it *)

(** The two zero-argument closures built in [Task2.from_task]:
    [lambda: task.locust_request], which captures the legacy task, and
    [lambda: t.request], which reads the field of the task that owns the
    statement when it is called. *)
Inductive Thunk : Type :=
| thunk_task_locust_request (task : Task.t)
| thunk_own_request.

(** The two functions handed over as converters. *)
Inductive Converter : Type :=
| conv_lreq_to_expr
| conv_req_to_expr.

(** Modelled from the spec: the node constructors of
    [transformer.python], which is not part of this module.  Section 6
    lists literal values, template strings, function calls with ordered
    keyword arguments, variable assignments, opaque blocks, and a
    deferred-binding expression taking a display label, a zero-argument
    resolver and a converter applied to the resolver's result. *)
Inductive Expression : Type :=
| Literal (value : PyVal)
| FString (template : pystr)
| FunctionCall (name : pystr) (named_args : dict Expression)
| ExpressionView (name : pystr) (target : Thunk) (converter : Converter).

Inductive Statement : Type :=
| OpaqueBlock (code : pystr)
| Assignment (lhs : pystr) (rhs : Expression).

(** The new task model. *)
Module Task2.
Record t : Type := {
  name : pystr;
  request : Request.t;
  statements : list Statement;
  global_code_blocks : dict (list pystr)
}.
End Task2.

(** Data to be sent via HTTP POST, along with which API of the requests
    library to use. *)
Module RequestsPostData.
Record t : Type := {
  data : option Expression;
  params : option Expression;
  json : option Expression
}.
End RequestsPostData.

(** What a consumer that drains a generator sees: the values yielded, in
    order, and the exception that ended the iteration, if one did. *)
Record Drained (A : Type) : Type := {
  yielded : list A;
  raised : option Exn
}.

(** A list of byte pairs as the Python list of 2-tuples it is. *)
Definition pairs_items (l : list (pybytes * pybytes)) : list PyVal :=
  map (fun p => VTuple [VBytes (fst p); VBytes (snd p)]) l.

Definition pairs_value (l : list (pybytes * pybytes)) : PyVal :=
  VList (pairs_items l).

(** A [str]-to-[str] mapping as a Python value. *)
Definition mapping_value (d : dict pystr) : PyVal :=
  VDict (map (fun kv => (fst kv, VStr (snd kv))) d).

(** [dataclasses.asdict(q)] for a query pair. *)
Definition QueryPair_asdict (q : QueryPair.t) : PyVal :=
  VDict [(pystr_of "name", VStr (QueryPair.name q));
         (pystr_of "value", VStr (QueryPair.value q))].

(** [lit.value.extend(arg)]: the attribute is looked up before the
    argument is evaluated, and only a list has it. *)
Definition literal_value_extend (lit : Expression)
    (arg : result (list (pybytes * pybytes))) : result Expression :=
  match lit with
  | Literal (VList items) =>
      new <- arg ;;
      Ok (Literal (VList (items ++ pairs_items new)))
  | Literal (VDict _) =>
      Raise (MkExn AttributeError
               [Txt "'dict' object has no attribute 'extend'"] None)
  | Literal _ =>
      Raise (MkExn AttributeError [Txt "object has no attribute 'extend'"] None)
  | _ =>
      Raise (MkExn AttributeError [Txt "object has no attribute 'value'"] None)
  end.

Section Transformer.

(** External collaborators: the Unicode printability table behind
    [repr], [json.loads], [transformer.helpers.zip_kv_pairs],
    [transformer.blacklist.on_blacklist] and [Request.task_name]. *)
Variable unicode_printable : codepoint -> bool.
Variable json_loads : PyVal -> result PyVal.
Variable zip_kv_pairs : list Header.t -> dict pystr.
Variable on_blacklist : pystr -> bool.
Variable task_name : Request.t -> pystr.

Definition LocustRequest_from_request (r : Request.t) : LocustRequest.t :=
  {| LocustRequest.method := Request.method r;
     LocustRequest.url :=
       str_repr unicode_printable (SplitResult.geturl (Request.url r));
     LocustRequest.headers := zip_kv_pairs (Request.headers r);
     LocustRequest.post_data := Request.post_data r;
     LocustRequest.query := Request.query r |}.

(** *** The payload interpreter *)

Definition RequestsPostData_empty : RequestsPostData.t :=
  {| RequestsPostData.data := None;
     RequestsPostData.params := None;
     RequestsPostData.json := None |}.

(** The fields that are not [None], in field order;
    [dataclasses.asdict] copies each literal as it is. *)
Definition RequestsPostData_as_kwargs (self : RequestsPostData.t)
  : dict Expression :=
  flat_map
    (fun kv => match snd kv with
               | Some v => [(fst kv, v)]
               | None => []
               end)
    [(pystr_of "data", RequestsPostData.data self);
     (pystr_of "params", RequestsPostData.params self);
     (pystr_of "json", RequestsPostData.json self)].

Fixpoint _params_from_name_value_dicts (dicts : list PyVal)
  : result (list (pybytes * pybytes)) :=
  match dicts with
  | [] => Ok []
  | d :: rest =>
      n <- py_getitem d (pystr_of "name") ;;
      nb <- py_encode n ;;
      v <- py_getitem d (pystr_of "value") ;;
      vb <- py_encode v ;;
      tl <- _params_from_name_value_dicts rest ;;
      Ok ((nb, vb) :: tl)
  end.

Definition _params_from_post_data (key : string) (post_data : dict PyVal)
  : result (option (list (pybytes * pybytes))) :=
  let params := dict_get (pystr_of key) post_data in
  if is_none params then Ok None
  else
    match params with
    | VList items =>
        r <- _params_from_name_value_dicts items ;;
        Ok (Some r)
    | _ =>
        Raise (MkExn TypeError
                 [Txt "the "; repr_key key; Txt " field should be a list"]
                 None)
    end.

(** Returns the updated [rpd]. *)
Definition _extract_text (mime : PyVal) (post_data : dict PyVal)
    (text_k : string) (rpd : RequestsPostData.t)
  : result RequestsPostData.t :=
  let text := dict_get (pystr_of text_k) post_data in
  if py_eq_str mime JSON_MIME_TYPE then
    if is_none text then
      Raise (MkExn ValueError
               [Txt "missing "; repr_key text_k;
                Txt " field for application/json content"] None)
    else
      try_except
        (j <- json_loads text ;;
         Ok {| RequestsPostData.data := RequestsPostData.data rpd;
               RequestsPostData.params := RequestsPostData.params rpd;
               RequestsPostData.json := Some (Literal j) |})
        [JSONDecodeError]
        (fun err =>
           Raise (MkExn ValueError
                    [Txt "unreadable JSON from field "; repr_key text_k]
                    (Some err)))
  else if negb (is_none text) then
    try_except
      (b <- py_encode text ;;
       Ok {| RequestsPostData.data := Some (Literal (VBytes b));
             RequestsPostData.params := RequestsPostData.params rpd;
             RequestsPostData.json := RequestsPostData.json rpd |})
      [UnicodeEncodeError]
      (fun err =>
         Raise (MkExn ValueError
                  [Txt "cannot encode the "; repr_key text_k;
                   Txt " field in UTF-8"] (Some err)))
  else Ok rpd.

Definition _from_har_post_data (post_data : dict PyVal)
  : result RequestsPostData.t :=
  let mime_k := "mimeType"%string in
  mime <- match dict_lookup (pystr_of mime_k) post_data with
          | Some v => Ok v
          | None =>
              Raise (MkExn ValueError
                       [Txt "missing "; repr_key mime_k; Txt " field"] None)
          end ;;
  let rpd := RequestsPostData_empty in
  let text_k := "text"%string in
  let params_k := "params"%string in
  if negb (dict_contains (pystr_of text_k) post_data)
     && negb (dict_contains (pystr_of params_k) post_data)
  then
    Raise (MkExn ValueError
             [Txt "should contain "; repr_key text_k; Txt " or ";
              repr_key params_k] None)
  else
    rpd <- _extract_text mime post_data text_k rpd ;;
    try_except
      (params <- _params_from_post_data params_k post_data ;;
       match params with
       | Some ps =>
           Ok {| RequestsPostData.data := RequestsPostData.data rpd;
                 RequestsPostData.params := Some (Literal (pairs_value ps));
                 RequestsPostData.json := RequestsPostData.json rpd |}
       | None => Ok rpd
       end)
      [KeyError; UnicodeEncodeError; TypeError]
      (fun err =>
         Raise (MkExn ValueError [Txt "unreadable params field"] (Some err))).

(** Converts a HAR postData object into a RequestsPostData instance;
    documented to raise [ValueError] if the object is invalid. *)
Definition RequestsPostData_from_har_post_data (post_data : dict PyVal)
  : result RequestsPostData.t :=
  try_except
    (_from_har_post_data post_data)
    [ValueError]
    (fun err =>
       Raise (MkExn ValueError
                [Txt "invalid HAR postData object: "; Repr (VDict post_data)]
                (Some err))).

(** *** The call-expression builder *)

Definition NOOP_HTTP_METHODS : list HttpMethod := [GET; OPTIONS; DELETE].

Definition method_in (m : HttpMethod) (s : list HttpMethod) : bool :=
  existsb (HttpMethod_eqb m) s.

(** [args["params"]] *)
Definition args_getitem (k : string) (args : dict Expression)
  : result Expression :=
  match dict_lookup (pystr_of k) args with
  | Some e => Ok e
  | None => Raise (MkExn KeyError [repr_key k] None)
  end.

Definition unsupported_method (m : HttpMethod) : Exn :=
  MkExn ValueError [Txt "unsupported HTTP method: "; ReprMethod m] None.

Definition req_to_expr (r : Request.t) : result Expression :=
  let url := Literal (VStr (SplitResult.geturl (Request.url r))) in
  let args : dict Expression :=
    [(pystr_of "url", url);
     (pystr_of "name", url);
     (pystr_of "headers",
      Literal (mapping_value (zip_kv_pairs (Request.headers r))));
     (pystr_of "timeout", Literal (VInt TIMEOUT));
     (pystr_of "allow_redirects", Literal (VBool false))] in
  args <-
    (if HttpMethod_eqb (Request.method r) POST then
       rpd <- RequestsPostData_from_har_post_data (Request.post_data r) ;;
       Ok (dict_update args (RequestsPostData_as_kwargs rpd))
     else if HttpMethod_eqb (Request.method r) PUT then
       rpd <- RequestsPostData_from_har_post_data (Request.post_data r) ;;
       let args := dict_update args (RequestsPostData_as_kwargs rpd) in
       let args :=
         dict_setdefault (pystr_of "params") (Literal (VDict [])) args in
       p <- args_getitem "params" args ;;
       p' <- literal_value_extend p
               (_params_from_name_value_dicts
                  (map QueryPair_asdict (Request.query r))) ;;
       Ok (dict_set (pystr_of "params") p' args)
     else if negb (method_in (Request.method r) NOOP_HTTP_METHODS) then
       Raise (unsupported_method (Request.method r))
     else Ok args) ;;
  let method := str_lower (HttpMethod_name (Request.method r)) in
  Ok (FunctionCall (pystr_of "self.client." ++ method) args).

Definition lreq_to_expr (lr : LocustRequest.t) : result Expression :=
  let url :=
    if str_startswith (LocustRequest.url lr) (pystr_of "f")
    then FString (slice_to_last 2 (LocustRequest.url lr))
    else Literal (VStr (slice_to_last 1 (LocustRequest.url lr))) in
  let args : dict Expression :=
    [(pystr_of "url", url);
     (pystr_of "name", url);
     (pystr_of "headers", Literal (mapping_value (LocustRequest.headers lr)));
     (pystr_of "timeout", Literal (VInt TIMEOUT));
     (pystr_of "allow_redirects", Literal (VBool false))] in
  args <-
    (if HttpMethod_eqb (LocustRequest.method lr) POST then
       rpd <- RequestsPostData_from_har_post_data
                (LocustRequest.post_data lr) ;;
       Ok (dict_update args (RequestsPostData_as_kwargs rpd))
     else if HttpMethod_eqb (LocustRequest.method lr) PUT then
       rpd <- RequestsPostData_from_har_post_data
                (LocustRequest.post_data lr) ;;
       let args := dict_update args (RequestsPostData_as_kwargs rpd) in
       let args :=
         dict_setdefault (pystr_of "params") (Literal (VDict [])) args in
       p <- args_getitem "params" args ;;
       p' <- literal_value_extend p
               (_params_from_name_value_dicts
                  (map QueryPair_asdict (LocustRequest.query lr))) ;;
       Ok (dict_set (pystr_of "params") p' args)
     else if negb (method_in (LocustRequest.method lr) NOOP_HTTP_METHODS) then
       Raise (unsupported_method (LocustRequest.method lr))
     else Ok args) ;;
  let method := str_lower (HttpMethod_name (LocustRequest.method lr)) in
  Ok (FunctionCall (pystr_of "self.client." ++ method) args).

(** *** The legacy task model *)

(** Generates Tasks from Requests; nothing in the loop can raise, so
    the generator is the list of what it yields. *)
Definition Task_from_requests (requests : list Request.t) : list Task.t :=
  flat_map
    (fun req =>
       if on_blacklist (SplitResult.netloc (Request.url req)) then []
       else [{| Task.name := task_name req;
                Task.request := req;
                Task.locust_request := None;
                Task.locust_preprocessing := [];
                Task.locust_postprocessing := [];
                Task.global_code_blocks := [] |}])
    (sorted requests Request.timestamp).

(** [lr._replace(headers=h)] *)
Definition LocustRequest_replace_headers (lr : LocustRequest.t)
    (h : dict pystr) : LocustRequest.t :=
  {| LocustRequest.method := LocustRequest.method lr;
     LocustRequest.url := LocustRequest.url lr;
     LocustRequest.headers := h;
     LocustRequest.post_data := LocustRequest.post_data lr;
     LocustRequest.query := LocustRequest.query lr |}.

(** [lr._replace(url=u)] *)
Definition LocustRequest_replace_url (lr : LocustRequest.t) (u : pystr)
  : LocustRequest.t :=
  {| LocustRequest.method := LocustRequest.method lr;
     LocustRequest.url := u;
     LocustRequest.headers := LocustRequest.headers lr;
     LocustRequest.post_data := LocustRequest.post_data lr;
     LocustRequest.query := LocustRequest.query lr |}.

(** [task._replace(locust_request=lr)] *)
Definition Task_replace_locust_request (self : Task.t)
    (lr : LocustRequest.t) : Task.t :=
  {| Task.name := Task.name self;
     Task.request := Task.request self;
     Task.locust_request := Some lr;
     Task.locust_preprocessing := Task.locust_preprocessing self;
     Task.locust_postprocessing := Task.locust_postprocessing self;
     Task.global_code_blocks := Task.global_code_blocks self |}.

Definition Task_inject_headers (self : Task.t) (headers : dict pystr)
  : Task.t :=
  let original_locust_request :=
    match Task.locust_request self with
    | None => LocustRequest_from_request (Task.request self)
    | Some lr => lr
    end in
  let new_locust_request :=
    LocustRequest_replace_headers original_locust_request
      (dict_update (LocustRequest.headers original_locust_request) headers) in
  Task_replace_locust_request self new_locust_request.

Definition Task_replace_url (self : Task.t) (url : pystr) : Task.t :=
  let original_locust_request :=
    match Task.locust_request self with
    | None => LocustRequest_from_request (Task.request self)
    | Some lr => lr
    end in
  let new_locust_request :=
    LocustRequest_replace_url original_locust_request url in
  Task_replace_locust_request self new_locust_request.

(** *** The new task model *)

(** The generated [__init__] followed by [__post_init__]. *)
Definition Task2_init (name : pystr) (request : Request.t)
    (statements : SeqArg Statement)
    (global_code_blocks : dict (list pystr)) : result Task2.t :=
  stmts <- py_list statements ;;
  Ok {| Task2.name := name;
        Task2.request := request;
        Task2.statements := stmts;
        Task2.global_code_blocks :=
          map (fun kv => (fst kv, snd kv)) global_code_blocks |}.

(** The loop of [Task2.from_requests] over the sorted requests; every
    task is built with [statements=...]. *)
Fixpoint Task2_from_requests_loop (reqs : list Request.t)
  : Drained Task2.t :=
  match reqs with
  | [] => {| yielded := []; raised := None |}
  | req :: rest =>
      if negb (on_blacklist (SplitResult.netloc (Request.url req))) then
        match Task2_init (task_name req) req EllipsisObj [] with
        | Ok t =>
            let d := Task2_from_requests_loop rest in
            {| yielded := t :: yielded d; raised := raised d |}
        | Raise e => {| yielded := []; raised := Some e |}
        end
      else Task2_from_requests_loop rest
  end.

Definition Task2_from_requests (requests : list Request.t)
  : Drained Task2.t :=
  Task2_from_requests_loop (sorted requests Request.timestamp).

Definition REQUEST_FIELD_LABEL : pystr :=
  pystr_of "this task's request field".

Definition Task2_from_task (task : Task.t) : result Task2.t :=
  t <- Task2_init (Task.name task) (Task.request task) (SeqOf []) [] ;;
  let expr_view :=
    match Task.locust_request task with
    | Some _ =>
        ExpressionView REQUEST_FIELD_LABEL
          (thunk_task_locust_request task) conv_lreq_to_expr
    | None =>
        ExpressionView REQUEST_FIELD_LABEL
          thunk_own_request conv_req_to_expr
    end in
  Ok {| Task2.name := Task2.name t;
        Task2.request := Task2.request t;
        Task2.statements :=
          map OpaqueBlock (Task.locust_preprocessing task)
          ++ [Assignment (pystr_of "response") expr_view]
          ++ map OpaqueBlock (Task.locust_postprocessing task);
        Task2.global_code_blocks := Task2.global_code_blocks t |}.

(** *** Resolving a deferred binding *)

(** What a thunk returns when called. *)
Inductive Resolved : Type :=
| resolved_locust_request (lr : option LocustRequest.t)
| resolved_request (r : Request.t).

(** Calling the thunk, for the task [owner] that holds the statement. *)
Definition call_thunk (owner : Task2.t) (th : Thunk) : Resolved :=
  match th with
  | thunk_task_locust_request task =>
      resolved_locust_request (Task.locust_request task)
  | thunk_own_request => resolved_request (Task2.request owner)
  end.

(** Applying a converter; an object of the other kind lacks the
    attributes the converter reads. *)
Definition apply_converter (c : Converter) (v : Resolved)
  : result Expression :=
  match c, v with
  | conv_lreq_to_expr, resolved_locust_request (Some lr) => lreq_to_expr lr
  | conv_req_to_expr, resolved_request r => req_to_expr r
  | _, _ =>
      Raise (MkExn AttributeError [Txt "object has no such attribute"] None)
  end.

(** [converter(target())] for a deferred binding of [owner]; other
    expressions stand for themselves. *)
Definition resolve (owner : Task2.t) (e : Expression) : result Expression :=
  match e with
  | ExpressionView _ target converter =>
      apply_converter converter (call_thunk owner target)
  | _ => Ok e
  end.

End Transformer.

(** ** Concrete collaborators and inputs

    Used to run the definitions above on explicit data. *)
Module Samples.

(** ASCII only: every non-ASCII code point counts as non-printable. *)
Definition unicode_printable (c : codepoint) : bool := false.

(** A decoder that knows one document, the number [1]. *)
Definition json_loads (v : PyVal) : result PyVal :=
  match v with
  | VStr s =>
      if pystr_eqb s (pystr_of "1") then Ok (VInt 1)
      else Raise (MkExn JSONDecodeError [Txt "Expecting value"] None)
  | VBytes _ => Raise (MkExn JSONDecodeError [Txt "Expecting value"] None)
  | _ =>
      Raise (MkExn TypeError
               [Txt "the JSON object must be str, bytes or bytearray"] None)
  end.

Definition zip_kv_pairs (pairs : list Header.t) : dict pystr :=
  fold_left (fun acc h => dict_set (Header.name h) (Header.value h) acc)
    pairs [].

Definition on_blacklist (host : pystr) : bool :=
  pystr_eqb host (pystr_of "ads.example.com").

Definition task_name (r : Request.t) : pystr :=
  HttpMethod_name (Request.method r) ++ pystr_of " "
  ++ SplitResult.geturl (Request.url r).

Definition mk_url (host path : string) : SplitResult.t :=
  {| SplitResult.netloc := pystr_of host;
     SplitResult.geturl := pystr_of "http://" ++ pystr_of host ++ pystr_of path |}.

Definition mk_request (ts : Z) (m : HttpMethod) (u : SplitResult.t)
    (pd : dict PyVal) (q : list QueryPair.t) : Request.t :=
  {| Request.timestamp := ts;
     Request.method := m;
     Request.url := u;
     Request.headers :=
       [{| Header.name := pystr_of "Accept"; Header.value := pystr_of "*/*" |}];
     Request.post_data := pd;
     Request.query := q |}.

Definition page2 : list QueryPair.t :=
  [{| QueryPair.name := pystr_of "page"; QueryPair.value := pystr_of "2" |}].

(** [{"mimeType": "text/plain", "text": "a"}] *)
Definition pd_text : dict PyVal :=
  [(pystr_of "mimeType", VStr (pystr_of "text/plain"));
   (pystr_of "text", VStr (pystr_of "a"))].

(** [{"mimeType": "application/x-www-form-urlencoded", "text": "a=1",
      "params": [{"name": "a", "value": "1"}]}] *)
Definition pd_form : dict PyVal :=
  [(pystr_of "mimeType", VStr (pystr_of "application/x-www-form-urlencoded"));
   (pystr_of "text", VStr (pystr_of "a=1"));
   (pystr_of "params",
    VList [VDict [(pystr_of "name", VStr (pystr_of "a"));
                  (pystr_of "value", VStr (pystr_of "1"))]])].

(** [{"mimeType": "application/json", "text": "1"}] *)
Definition pd_json : dict PyVal :=
  [(pystr_of "mimeType", VStr JSON_MIME_TYPE);
   (pystr_of "text", VStr (pystr_of "1"))].

(** [{"mimeType": "application/json", "text": "1",
      "params": [{"name": "a", "value": "1"}]}] *)
Definition pd_json_params : dict PyVal :=
  pd_json
  ++ [(pystr_of "params",
       VList [VDict [(pystr_of "name", VStr (pystr_of "a"));
                     (pystr_of "value", VStr (pystr_of "1"))]])].

(** [{"mimeType": "text/plain", "text": 5}]: the body text is a
    number. *)
Definition pd_text_number : dict PyVal :=
  [(pystr_of "mimeType", VStr (pystr_of "text/plain"));
   (pystr_of "text", VInt 5)].





Definition get_home : Request.t :=
  mk_request 10 GET (mk_url "example.com" "/") [] [].

Definition get_ad : Request.t :=
  mk_request 5 GET (mk_url "ads.example.com" "/pixel") [] [].

Definition get_early : Request.t :=
  mk_request 3 GET (mk_url "example.com" "/early") [] [].


Definition put_text : Request.t :=
  mk_request 20 PUT (mk_url "example.com" "/items") pd_text page2.

Definition put_form : Request.t :=
  mk_request 21 PUT (mk_url "example.com" "/items") pd_form page2.

Definition patch_home : Request.t :=
  mk_request 30 PATCH (mk_url "example.com" "/") pd_text [].

Definition legacy_task : Task.t :=
  {| Task.name := pystr_of "home";
     Task.request := get_home;
     Task.locust_request := None;
     Task.locust_preprocessing := [pystr_of "token = login()"];
     Task.locust_postprocessing := [pystr_of "check(response)"];
     Task.global_code_blocks := [] |}.

End Samples.

(** ** Properties *)

Lemma pystr_eqb_refl (s : pystr) : pystr_eqb s s = true.
Proof.
  induction s as [|c s IH]; simpl; [reflexivity|].
  now rewrite N.eqb_refl, IH.
Qed.

Lemma pystr_eqb_eq (a b : pystr) : pystr_eqb a b = true <-> a = b.
Proof.
  split; [|intros ->; apply pystr_eqb_refl].
  revert b; induction a as [|x a IH]; intros [|y b]; simpl; try discriminate;
    [reflexivity|].
  intros H. apply andb_prop in H as [Hx Hab].
  apply N.eqb_eq in Hx. apply IH in Hab. congruence.
Qed.

(** *** Dictionaries *)

Lemma dict_lookup_set {V} (k k' : pystr) (v : V) (d : dict V) :
  dict_lookup k (dict_set k' v d)
  = if pystr_eqb k' k then Some v else dict_lookup k d.
Proof.
  induction d as [|[k0 v0] d IH]; cbn [dict_set dict_lookup];
    [reflexivity|].
  destruct (pystr_eqb k0 k') eqn:H0; cbn [dict_lookup].
  - apply pystr_eqb_eq in H0; subst k0.
    now destruct (pystr_eqb k' k).
  - rewrite IH.
    destruct (pystr_eqb k0 k) eqn:H1; [|reflexivity].
    destruct (pystr_eqb k' k) eqn:H2; [|reflexivity].
    apply pystr_eqb_eq in H1, H2. subst.
    rewrite pystr_eqb_refl in H0. discriminate.
Qed.

Lemma dict_lookup_absent {V} (k : pystr) (d : dict V) :
  ~ In k (dict_keys d) -> dict_lookup k d = None.
Proof.
  induction d as [|[k0 v0] d IH]; cbn; [reflexivity|].
  intros H. destruct (pystr_eqb k0 k) eqn:H0.
  - apply pystr_eqb_eq in H0. tauto.
  - apply IH. tauto.
Qed.

(** The merge [{**d, **other}] is right-biased. *)
Lemma dict_update_lookup {V} (k : pystr) (d other : dict V) :
  NoDup (dict_keys other) ->
  dict_lookup k (dict_update d other)
  = match dict_lookup k other with
    | Some v => Some v
    | None => dict_lookup k d
    end.
Proof.
  unfold dict_update. revert d.
  induction other as [|[k0 v0] other IH]; intros d Hnd;
    cbn [fold_left dict_lookup fst snd]; [reflexivity|].
  cbn in Hnd. inversion Hnd as [|? ? Hnotin Hnd']; subst.
  rewrite IH by assumption. rewrite dict_lookup_set.
  destruct (pystr_eqb k0 k) eqn:H0.
  - apply pystr_eqb_eq in H0; subst k0.
    now rewrite (dict_lookup_absent _ _ Hnotin).
  - reflexivity.
Qed.

(** *** Sorting *)

Section Sorting.

Variable A : Type.
Variable key : A -> Z.

Lemma In_sorted_insert (x z : A) (l : list A) :
  In z (sorted_insert key x l) <-> z = x \/ In z l.
Proof.
  induction l as [|y l IH]; cbn [sorted_insert].
  - cbn. intuition congruence.
  - destruct (key x <=? key y)%Z; cbn [In]; [intuition congruence|].
    rewrite IH. intuition congruence.
Qed.

Lemma In_sorted (z : A) (l : list A) : In z (sorted l key) <-> In z l.
Proof.
  unfold sorted. induction l as [|x l IH]; cbn [fold_right]; [tauto|].
  rewrite In_sorted_insert, IH. cbn. intuition congruence.
Qed.

Lemma sorted_insert_perm (x : A) (l : list A) :
  Permutation (sorted_insert key x l) (x :: l).
Proof.
  induction l as [|y l IH]; cbn [sorted_insert]; [reflexivity|].
  destruct (key x <=? key y)%Z; [reflexivity|].
  rewrite IH. apply perm_swap.
Qed.

Lemma sorted_perm (l : list A) : Permutation (sorted l key) l.
Proof.
  unfold sorted. induction l as [|x l IH]; cbn [fold_right];
    [reflexivity|].
  rewrite sorted_insert_perm. now constructor.
Qed.

(** Ascending keys. *)
Definition key_le (a b : A) : Prop := (key a <= key b)%Z.

Lemma sorted_insert_ascending (x : A) (l : list A) :
  StronglySorted key_le l -> StronglySorted key_le (sorted_insert key x l).
Proof.
  induction 1 as [|y l Hs IH Hy]; cbn [sorted_insert].
  - repeat constructor.
  - destruct (Z.leb_spec (key x) (key y)).
    + constructor; [now constructor|].
      constructor; [assumption|].
      rewrite Forall_forall in Hy |- *. intros z Hz.
      specialize (Hy z Hz). unfold key_le in *. lia.
    + constructor; [assumption|].
      rewrite Forall_forall in Hy |- *. intros z Hz.
      apply In_sorted_insert in Hz. destruct Hz as [->|Hz].
      * unfold key_le. lia.
      * now apply Hy.
Qed.

Lemma sorted_ascending (l : list A) : StronglySorted key_le (sorted l key).
Proof.
  unfold sorted. induction l as [|x l IH]; cbn [fold_right];
    [constructor|].
  now apply sorted_insert_ascending.
Qed.

End Sorting.








(** The error of the public entry point of the payload interpreter: a
    [ValueError] that shows the descriptor and carries the cause. *)
Definition invalid_payload (post_data : dict PyVal) (cause : Exn) : Exn :=
  MkExn ValueError
    [Txt "invalid HAR postData object: "; Repr (VDict post_data)] (Some cause).

(** The bytes of the query pairs, pair by pair. *)
Definition encodes_to (q : QueryPair.t) (p : pybytes * pybytes) : Prop :=
  utf8_encode (QueryPair.name q) = Some (fst p)
  /\ utf8_encode (QueryPair.value q) = Some (snd p).

Section Properties.

Set Default Proof Using "Type".

Variable unicode_printable : codepoint -> bool.
Variable json_loads : PyVal -> result PyVal.
Variable zip_kv_pairs : list Header.t -> dict pystr.
Variable on_blacklist : pystr -> bool.
Variable task_name : Request.t -> pystr.

(** *** Query pairs as parameters *)

Lemma query_params_ok (query : list QueryPair.t)
    (qs : list (pybytes * pybytes)) :
  Forall2 encodes_to query qs ->
  _params_from_name_value_dicts (map QueryPair_asdict query) = Ok qs.
Proof.
  induction 1 as [|q p query qs [Hn Hv] _ IH]; [reflexivity|].
  cbn [map _params_from_name_value_dicts].
  unfold QueryPair_asdict at 1, py_getitem at 1; cbn.
  rewrite Hn; cbn. rewrite Hv; cbn.
  rewrite IH; cbn. now destruct p.
Qed.

(** *** PUT requests *)

(** The keyword [params] of a built call. *)
Definition call_params (e : Expression) : option Expression :=
  match e with
  | FunctionCall _ args => dict_lookup (pystr_of "params") args
  | _ => None
  end.

Definition no_extend : Exn :=
  MkExn AttributeError [Txt "'dict' object has no attribute 'extend'"] None.

(** The builder as section 4.2 describes it: one function of the
    normalized tuple (method, url expression, headers, payload
    descriptor, query pairs).  Both [req_to_expr] and [lreq_to_expr]
    are instances of it. *)
Definition build_call (m : HttpMethod) (url : Expression)
    (headers : dict pystr) (post_data : dict PyVal)
    (query : list QueryPair.t) : result Expression :=
  let args : dict Expression :=
    [(pystr_of "url", url);
     (pystr_of "name", url);
     (pystr_of "headers", Literal (mapping_value headers));
     (pystr_of "timeout", Literal (VInt TIMEOUT));
     (pystr_of "allow_redirects", Literal (VBool false))] in
  args <-
    (if HttpMethod_eqb m POST then
       rpd <- RequestsPostData_from_har_post_data json_loads post_data ;;
       Ok (dict_update args (RequestsPostData_as_kwargs rpd))
     else if HttpMethod_eqb m PUT then
       rpd <- RequestsPostData_from_har_post_data json_loads post_data ;;
       let args := dict_update args (RequestsPostData_as_kwargs rpd) in
       let args :=
         dict_setdefault (pystr_of "params") (Literal (VDict [])) args in
       p <- args_getitem "params" args ;;
       p' <- literal_value_extend p
               (_params_from_name_value_dicts (map QueryPair_asdict query)) ;;
       Ok (dict_set (pystr_of "params") p' args)
     else if negb (method_in m NOOP_HTTP_METHODS) then
       Raise (unsupported_method m)
     else Ok args) ;;
  Ok (FunctionCall (pystr_of "self.client." ++ str_lower (HttpMethod_name m))
        args).

(** The URL expression of the legacy path. *)
Definition lreq_url (lr : LocustRequest.t) : Expression :=
  if str_startswith (LocustRequest.url lr) (pystr_of "f")
  then FString (slice_to_last 2 (LocustRequest.url lr))
  else Literal (VStr (slice_to_last 1 (LocustRequest.url lr))).

Lemma req_to_expr_build_call (r : Request.t) :
  req_to_expr json_loads zip_kv_pairs r
  = build_call (Request.method r)
      (Literal (VStr (SplitResult.geturl (Request.url r))))
      (zip_kv_pairs (Request.headers r))
      (Request.post_data r) (Request.query r).
Proof. reflexivity. Qed.

Lemma lreq_to_expr_build_call (lr : LocustRequest.t) :
  lreq_to_expr json_loads lr
  = build_call (LocustRequest.method lr) (lreq_url lr)
      (LocustRequest.headers lr)
      (LocustRequest.post_data lr) (LocustRequest.query lr).
Proof. reflexivity. Qed.

Section BuildCall.

Variable m : HttpMethod.
Variable url : Expression.
Variable headers : dict pystr.
Variable post_data : dict PyVal.
Variable query : list QueryPair.t.

Lemma build_call_put_without_params (rpd : RequestsPostData.t) :
  m = PUT ->
  RequestsPostData_from_har_post_data json_loads post_data = Ok rpd ->
  RequestsPostData.params rpd = None ->
  build_call m url headers post_data query = Raise no_extend.
Proof.
  intros Hm Hpd Hp. unfold build_call. rewrite Hm, Hpd.
  destruct rpd as [d p j]; cbn in Hp; subst p.
  destruct d, j; reflexivity.
Qed.

Lemma build_call_put_with_params (rpd : RequestsPostData.t)
    (ps qs : list (pybytes * pybytes)) :
  m = PUT ->
  RequestsPostData_from_har_post_data json_loads post_data = Ok rpd ->
  RequestsPostData.params rpd = Some (Literal (pairs_value ps)) ->
  Forall2 encodes_to query qs ->
  exists call,
    build_call m url headers post_data query = Ok call
    /\ call_params call = Some (Literal (pairs_value (ps ++ qs))).
Proof.
  intros Hm Hpd Hp Hq. unfold build_call. rewrite Hm, Hpd.
  destruct rpd as [d p j]; cbn in Hp; subst p.
  apply query_params_ok in Hq.
  destruct d, j; cbn; rewrite Hq; cbn;
    (eexists; split; [reflexivity|]); cbn;
    unfold pairs_value, pairs_items; now rewrite map_app.
Qed.

End BuildCall.

(** *** Which exceptions the payload interpreter lets through *)

Lemma py_getitem_class (v : PyVal) (k : pystr) (e : Exn) :
  py_getitem v k = Raise e ->
  exn_class e = KeyError \/ exn_class e = TypeError.
Proof.
  destruct v; cbn; try (intros [= <-]; auto; fail).
  destruct (dict_lookup k items); intros [= <-]; auto.
Qed.

Lemma py_encode_class (v : PyVal) (e : Exn) :
  py_encode v = Raise e ->
  exn_class e = UnicodeEncodeError \/ exn_class e = AttributeError.
Proof.
  destruct v; cbn; try (intros [= <-]; auto; fail).
  destruct (utf8_encode s); intros [= <-]; auto.
Qed.

(** The classes a parameter list can fail with. *)
Definition params_failure (c : ExnClass) : Prop :=
  c = KeyError \/ c = TypeError \/ c = UnicodeEncodeError
  \/ c = AttributeError.

Lemma _params_from_name_value_dicts_class (dicts : list PyVal) (e : Exn) :
  _params_from_name_value_dicts dicts = Raise e ->
  params_failure (exn_class e).
Proof.
  unfold params_failure.
  induction dicts as [|d rest IH];
    cbn [_params_from_name_value_dicts]; [discriminate|].
  destruct (py_getitem d (pystr_of "name")) as [n|e1] eqn:Hn; cbn [bind].
  2:{ intros [= <-]. apply py_getitem_class in Hn. destruct Hn; auto. }
  destruct (py_encode n) as [nb|e1] eqn:Hnb; cbn [bind].
  2:{ intros [= <-]. apply py_encode_class in Hnb. destruct Hnb; auto. }
  destruct (py_getitem d (pystr_of "value")) as [v|e1] eqn:Hv; cbn [bind].
  2:{ intros [= <-]. apply py_getitem_class in Hv. destruct Hv; auto. }
  destruct (py_encode v) as [vb|e1] eqn:Hvb; cbn [bind].
  2:{ intros [= <-]. apply py_encode_class in Hvb. destruct Hvb; auto. }
  destruct (_params_from_name_value_dicts rest) as [tl|e1]; cbn [bind];
    [discriminate|].
  intros [= <-]. now apply IH.
Qed.


(** What the public entry point does with a failure of the inner
    function: a value error is wrapped, anything else passes. *)
Lemma from_har_post_data_raise (pd : dict PyVal) (e : Exn) :
  RequestsPostData_from_har_post_data json_loads pd = Raise e ->
  (exists cause,
      _from_har_post_data json_loads pd = Raise cause
      /\ isinstance cause ValueError = true
      /\ e = invalid_payload pd cause)
  \/ (_from_har_post_data json_loads pd = Raise e
      /\ isinstance e ValueError = false).
Proof.
  unfold RequestsPostData_from_har_post_data, try_except.
  destruct (_from_har_post_data json_loads pd) as [rpd|e0]; [discriminate|].
  cbn [existsb]. rewrite orb_false_r.
  destruct (isinstance e0 ValueError) eqn:Hc; intros [= <-].
  - left. now exists e0.
  - right. now split.
Qed.

Lemma from_har_post_data_ok (pd : dict PyVal) (rpd : RequestsPostData.t) :
  RequestsPostData_from_har_post_data json_loads pd = Ok rpd <->
  _from_har_post_data json_loads pd = Ok rpd.
Proof.
  unfold RequestsPostData_from_har_post_data, try_except.
  destruct (_from_har_post_data json_loads pd) as [r|e0]; [split; auto|].
  split; [|discriminate].
  destruct (existsb (isinstance e0) [ValueError]); discriminate.
Qed.



(** *** What an accepted payload yields *)

Definition rpd_json_only (j : PyVal) : RequestsPostData.t :=
  {| RequestsPostData.data := None;
     RequestsPostData.params := None;
     RequestsPostData.json := Some (Literal j) |}.

Definition rpd_data_only (b : pybytes) : RequestsPostData.t :=
  {| RequestsPostData.data := Some (Literal (VBytes b));
     RequestsPostData.params := None;
     RequestsPostData.json := None |}.

(** The three ways [_extract_text] returns, starting from an empty
    record. *)
Lemma _extract_text_ok (mime : PyVal) (pd : dict PyVal)
    (rpd : RequestsPostData.t) :
  let text := dict_get (pystr_of "text") pd in
  _extract_text json_loads mime pd "text" RequestsPostData_empty = Ok rpd ->
  (py_eq_str mime JSON_MIME_TYPE = true /\ is_none text = false
   /\ exists j, json_loads text = Ok j /\ rpd = rpd_json_only j)
  \/ (py_eq_str mime JSON_MIME_TYPE = false /\ is_none text = false
      /\ exists b, py_encode text = Ok b /\ rpd = rpd_data_only b)
  \/ (py_eq_str mime JSON_MIME_TYPE = false /\ is_none text = true
      /\ rpd = RequestsPostData_empty).
Proof.
  intros text. unfold _extract_text, try_except. fold text.
  destruct (py_eq_str mime JSON_MIME_TYPE).
  - destruct (is_none text); [discriminate|].
    destruct (json_loads text) as [j|e1]; cbn [bind].
    + intros [= <-]. left. repeat split. now exists j.
    + destruct (existsb (isinstance e1) [JSONDecodeError]); discriminate.
  - destruct (is_none text); cbn [negb].
    + intros [= <-]. right; right. now repeat split.
    + destruct (py_encode text) as [b|e1]; cbn [bind].
      * intros [= <-]. right; left. repeat split. now exists b.
      * destruct (existsb (isinstance e1) [UnicodeEncodeError]);
          discriminate.
Qed.

(** The [params] output of a parameter list. *)
Definition params_output (ops : option (list (pybytes * pybytes)))
  : option Expression :=
  option_map (fun ps => Literal (pairs_value ps)) ops.

Lemma _from_har_post_data_ok (pd : dict PyVal) (rpd : RequestsPostData.t) :
  _from_har_post_data json_loads pd = Ok rpd ->
  exists mime rpd1 ops,
    dict_lookup (pystr_of "mimeType") pd = Some mime
    /\ _extract_text json_loads mime pd "text" RequestsPostData_empty
       = Ok rpd1
    /\ _params_from_post_data "params" pd = Ok ops
    /\ RequestsPostData.data rpd = RequestsPostData.data rpd1
    /\ RequestsPostData.json rpd = RequestsPostData.json rpd1
    /\ RequestsPostData.params rpd = params_output ops.
Proof.
  unfold _from_har_post_data.
  destruct (dict_lookup (pystr_of "mimeType") pd) as [mime|]; cbn [bind];
    [|discriminate].
  destruct (negb (dict_contains (pystr_of "text") pd)
            && negb (dict_contains (pystr_of "params") pd));
    [discriminate|].
  destruct (_extract_text json_loads mime pd "text" RequestsPostData_empty)
    as [rpd1|e1] eqn:Hx; cbn [bind]; [|discriminate].
  unfold try_except.
  destruct (_params_from_post_data "params" pd) as [ops|e1]; cbn [bind].
  - intros H. exists mime, rpd1, ops.
    split; [reflexivity|]. split; [exact Hx|]. split; [reflexivity|].
    destruct ops; injection H as <-; cbn; (do 2 (split; [reflexivity|]));
      [reflexivity|].
      apply _extract_text_ok in Hx.
      destruct Hx as [(_ & _ & j & _ & ->)|[(_ & _ & b & _ & ->)|(_ & _ & ->)]];
        reflexivity.
  - destruct (existsb (isinstance e1)
                [KeyError; UnicodeEncodeError; TypeError]); discriminate.
Qed.

(** The [params] of an accepted payload is absent or a literal list of
    byte pairs. *)
Lemma accepted_params_shape (pd : dict PyVal) (rpd : RequestsPostData.t) :
  RequestsPostData_from_har_post_data json_loads pd = Ok rpd ->
  RequestsPostData.params rpd = None
  \/ exists ps, RequestsPostData.params rpd = Some (Literal (pairs_value ps)).
Proof.
  intros H. apply from_har_post_data_ok, _from_har_post_data_ok in H.
  destruct H as (mime & rpd1 & [ps|] & _ & _ & _ & _ & _ & ->); cbn.
  - right. now exists ps.
  - now left.
Qed.

(** *** Method dispatch *)

(** The methods with a call-building rule. *)
Definition supported (m : HttpMethod) : bool :=
  match m with
  | GET | OPTIONS | DELETE | POST | PUT => true
  | _ => false
  end.

Definition client_method (m : HttpMethod) : pystr :=
  pystr_of "self.client." ++ str_lower (HttpMethod_name m).

(** No payload key among the keyword arguments. *)
Definition payload_free (args : dict Expression) : Prop :=
  dict_lookup (pystr_of "data") args = None
  /\ dict_lookup (pystr_of "params") args = None
  /\ dict_lookup (pystr_of "json") args = None.

Definition base_keys : list pystr :=
  map pystr_of ["url"; "name"; "headers"; "timeout"; "allow_redirects"]%string.

Lemma args_getitem_class (k : string) (args : dict Expression) (e : Exn) :
  args_getitem k args = Raise e -> exn_class e = KeyError.
Proof.
  unfold args_getitem.
  destruct (dict_lookup (pystr_of k) args); [discriminate|].
  now intros [= <-].
Qed.

Lemma literal_value_extend_class (lit : Expression)
    (arg : result (list (pybytes * pybytes))) (e : Exn) :
  literal_value_extend lit arg = Raise e ->
  exn_class e = AttributeError \/ arg = Raise e.
Proof.
  destruct lit as [v| | |]; cbn; try (intros [= <-]; now left).
  destruct v; try (intros [= <-]; now left).
  destruct arg as [new|e1]; cbn; [discriminate|].
  intros [= <-]. now right.
Qed.

Section Dispatch.

Variable m : HttpMethod.
Variable url : Expression.
Variable headers : dict pystr.
Variable post_data : dict PyVal.
Variable query : list QueryPair.t.

Lemma build_call_noop :
  method_in m NOOP_HTTP_METHODS = true ->
  exists args,
    build_call m url headers post_data query
    = Ok (FunctionCall (client_method m) args)
    /\ dict_keys args = base_keys
    /\ payload_free args.
Proof.
  intros H. destruct m; try discriminate H;
    (eexists; split; [reflexivity|]); split; try reflexivity;
    repeat split.
Qed.

Lemma build_call_unsupported :
  supported m = false ->
  build_call m url headers post_data query = Raise (unsupported_method m).
Proof. intros H. destruct m; try discriminate H; reflexivity. Qed.

(** A payload-bearing method never fails the way an unsupported
    method does. *)
Lemma build_call_payload_failure (e : Exn) :
  m = POST \/ m = PUT ->
  build_call m url headers post_data query = Raise e ->
  exn_class e <> ValueError \/ exn_cause e <> None.
Proof.
  assert (Hhar : forall e0,
    RequestsPostData_from_har_post_data json_loads post_data = Raise e0 ->
    exn_class e0 <> ValueError \/ exn_cause e0 <> None).
  { intros e0 H0. apply from_har_post_data_raise in H0.
    destruct H0 as [(cause & _ & _ & ->)|[_ Hc]].
    - right. discriminate.
    - left. intros Hv. unfold isinstance in Hc. rewrite Hv in Hc.
      discriminate. }
  intros [-> | ->]; unfold build_call; cbn [HttpMethod_eqb];
    destruct (RequestsPostData_from_har_post_data json_loads post_data)
      as [rpd|e0] eqn:Hpd; cbn [bind];
    try (intros [= <-]; now apply Hhar); try discriminate.
  match goal with
  | |- context [args_getitem ?k ?a] =>
      destruct (args_getitem k a) as [p|e1] eqn:Hg
  end; cbn [bind].
  2:{ intros [= <-]. apply args_getitem_class in Hg. left.
      rewrite Hg. discriminate. }
  match goal with
  | |- context [literal_value_extend ?x ?a] =>
      destruct (literal_value_extend x a) as [p'|e1] eqn:Hl
  end; cbn [bind]; [discriminate|].
  intros [= <-]. left.
  apply literal_value_extend_class in Hl. destruct Hl as [Hl|Hl].
  - rewrite Hl. discriminate.
  - apply _params_from_name_value_dicts_class in Hl.
    destruct Hl as [Hl|[Hl|[Hl|Hl]]]; rewrite Hl; discriminate.
Qed.

Lemma build_call_raise_unsupported (m' : HttpMethod) :
  build_call m url headers post_data query
  = Raise (unsupported_method m') ->
  supported m = false /\ m' = m.
Proof.
  intros H.
  destruct (supported m) eqn:Hs.
  - exfalso.
    destruct (method_in m NOOP_HTTP_METHODS) eqn:Hn.
    + destruct build_call_noop as (args & Hb & _); [exact Hn|].
      rewrite Hb in H. discriminate.
    + assert (Hp : m = POST \/ m = PUT)
        by (destruct m; try discriminate; auto).
      destruct (build_call_payload_failure Hp H) as [Hc|Hc];
        now apply Hc.
  - rewrite (build_call_unsupported Hs) in H. injection H as H.
    now split.
Qed.

End Dispatch.

(** *** The claims about the builder and the payload interpreter *)

(** C1.  What the builders do on a PUT request whose payload
    descriptor is accepted.  When the payload has parameters, the call
    carries a [params] list made of the payload parameters followed by
    the query pairs, in order.  When the payload has no parameters,
    [params] is initialized to an empty dict literal, which has no
    [extend], and both builders raise [AttributeError] instead of
    returning the query pairs alone. *)
Theorem C1_put_params (r : Request.t) (lr : LocustRequest.t)
    (rpd : RequestsPostData.t) :
  Request.method r = PUT ->
  LocustRequest.method lr = PUT ->
  LocustRequest.post_data lr = Request.post_data r ->
  LocustRequest.query lr = Request.query r ->
  RequestsPostData_from_har_post_data json_loads (Request.post_data r)
    = Ok rpd ->
  match RequestsPostData.params rpd with
  | None =>
      req_to_expr json_loads zip_kv_pairs r = Raise no_extend
      /\ lreq_to_expr json_loads lr = Raise no_extend
  | Some lit =>
      exists ps,
        lit = Literal (pairs_value ps)
        /\ forall qs,
             Forall2 encodes_to (Request.query r) qs ->
             (exists call,
                 req_to_expr json_loads zip_kv_pairs r = Ok call
                 /\ call_params call
                    = Some (Literal (pairs_value (ps ++ qs))))
             /\ (exists call,
                    lreq_to_expr json_loads lr = Ok call
                    /\ call_params call
                       = Some (Literal (pairs_value (ps ++ qs))))
  end.
Proof.
  intros Hr Hlr Hpd Hq Hrpd.
  rewrite req_to_expr_build_call, lreq_to_expr_build_call, Hpd, Hq.
  destruct (accepted_params_shape _ Hrpd) as [Hp|[ps Hp]]; rewrite Hp.
  - split; eapply build_call_put_without_params; eassumption.
  - exists ps. split; [reflexivity|]. intros qs Hqs.
    split; eapply build_call_put_with_params; eassumption.
Qed.

(** C4.  Call building has a rule exactly for GET, OPTIONS, DELETE,
    POST and PUT.  For GET, OPTIONS and DELETE the call has the five
    base keys and none of [data], [params], [json], whatever the
    payload descriptor is; for a method outside the five the builder
    raises the unsupported-method error, whose message shows that
    method; and that error is raised for no other request.  The same
    holds for the legacy descriptor. *)
Theorem C4_method_dispatch (r : Request.t) (lr : LocustRequest.t) :
  (method_in (Request.method r) NOOP_HTTP_METHODS = true ->
   exists args,
     req_to_expr json_loads zip_kv_pairs r
     = Ok (FunctionCall (client_method (Request.method r)) args)
     /\ dict_keys args = base_keys /\ payload_free args)
  /\ (supported (Request.method r) = false ->
      req_to_expr json_loads zip_kv_pairs r
      = Raise (unsupported_method (Request.method r)))
  /\ (forall m,
        req_to_expr json_loads zip_kv_pairs r = Raise (unsupported_method m) ->
        supported (Request.method r) = false /\ m = Request.method r)
  /\ (method_in (LocustRequest.method lr) NOOP_HTTP_METHODS = true ->
      exists args,
        lreq_to_expr json_loads lr
        = Ok (FunctionCall (client_method (LocustRequest.method lr)) args)
        /\ dict_keys args = base_keys /\ payload_free args)
  /\ (supported (LocustRequest.method lr) = false ->
      lreq_to_expr json_loads lr
      = Raise (unsupported_method (LocustRequest.method lr)))
  /\ (forall m,
        lreq_to_expr json_loads lr = Raise (unsupported_method m) ->
        supported (LocustRequest.method lr) = false
        /\ m = LocustRequest.method lr).
Proof.
  rewrite req_to_expr_build_call, lreq_to_expr_build_call.
  repeat split;
    first [ now apply build_call_noop
          | now apply build_call_unsupported
          | eapply build_call_raise_unsupported; eassumption ].
Qed.







(** *** Descriptors with fields of the expected types *)







(** The classes the parameter stage catches. *)
Definition params_caught (e : Exn) : bool :=
  existsb (isinstance e) [KeyError; UnicodeEncodeError; TypeError].




Lemma dict_get_not_none (k : pystr) (pd : dict PyVal) :
  is_none (dict_get k pd) = false -> dict_contains k pd = true.
Proof.
  unfold dict_get, dict_contains.
  now destruct (dict_lookup k pd).
Qed.

Definition missing_json_text : Exn :=
  MkExn ValueError
    [Txt "missing "; repr_key "text";
     Txt " field for application/json content"] None.


Section JsonPayload.

Variable pd : dict PyVal.
Variable mime : PyVal.
Hypothesis Hmime : dict_lookup (pystr_of "mimeType") pd = Some mime.
Hypothesis Hjson : py_eq_str mime JSON_MIME_TYPE = true.

Let text := dict_get (pystr_of "text") pd.




End JsonPayload.




(** *** Source-quoted URLs *)

Lemma slice_to_last_1 (a c : codepoint) (body : pystr) :
  slice_to_last 1 (a :: body ++ [c]) = body.
Proof.
  unfold slice_to_last.
  now rewrite app_comm_cons, removelast_last.
Qed.

Lemma slice_to_last_2 (a b c : codepoint) (body : pystr) :
  slice_to_last 2 (a :: b :: body ++ [c]) = body.
Proof.
  unfold slice_to_last.
  now rewrite 2 app_comm_cons, removelast_last.
Qed.




(** A [repr] never starts with the template marker. *)
Lemma str_repr_not_fstring (s : pystr) :
  str_startswith (str_repr unicode_printable s) (pystr_of "f") = false.
Proof.
  unfold str_repr, repr_quote.
  now destruct (str_contains SQUOTE s && negb (str_contains DQUOTE s)).
Qed.

Lemma hex_fixed_length (w : nat) (n : N) :
  List.length (hex_fixed w n) = w.
Proof.
  revert n; induction w as [|w IH]; intros n; cbn [hex_fixed];
    [reflexivity|].
  rewrite length_app, IH. cbn. lia.
Qed.

(** An escaped character takes at least two characters. *)
Lemma repr_char_length (q c : codepoint) :
  (1 <= List.length (repr_char unicode_printable q c))%nat
  /\ (List.length (repr_char unicode_printable q c) = 1%nat ->
      char_plain unicode_printable q c = true).
Proof.
  unfold repr_char, char_plain.
  destruct ((c =? q)%N || (c =? BACKSLASH)%N); cbn [negb andb List.length];
    [split; [lia|discriminate]|].
  destruct (N.eqb_spec c 9); [cbn; split; [lia|discriminate]|].
  destruct (N.eqb_spec c 10); [cbn; split; [lia|discriminate]|].
  destruct (N.eqb_spec c 13); [cbn; split; [lia|discriminate]|].
  destruct (N.ltb_spec c 32); cbn [orb].
  { cbn [List.length]. rewrite hex_fixed_length. split; [lia|discriminate]. }
  destruct (N.eqb_spec c 127); cbn [negb andb].
  { cbn [List.length]. rewrite hex_fixed_length. split; [lia|discriminate]. }
  assert (H32 : (32 <=? c)%N = true) by now apply N.leb_le.
  rewrite H32. cbn [andb].
  destruct (c <? 127)%N; cbn [orb]; [split; [cbn; lia|reflexivity]|].
  destruct (unicode_printable c); [split; [cbn; lia|reflexivity]|].
  destruct (c <=? 255)%N; [|destruct (c <=? 65535)%N];
    cbn [List.length]; rewrite hex_fixed_length; split; try lia; discriminate.
Qed.

Lemma flat_map_repr_length (q : codepoint) (s : pystr) :
  (List.length s <= List.length (flat_map (repr_char unicode_printable q) s))%nat
  /\ (List.length (flat_map (repr_char unicode_printable q) s) = List.length s ->
      forallb (char_plain unicode_printable q) s = true).
Proof.
  induction s as [|c s [IHle IHeq]]; cbn [flat_map forallb List.length];
    [split; [lia|reflexivity]|].
  rewrite length_app.
  destruct (repr_char_length q c) as [Hle Heq].
  split; [lia|]. intros H.
  rewrite Heq, IHeq by lia. reflexivity.
Qed.

(** Conversely, the slice gives [s] back only when nothing is
    escaped. *)
Lemma repr_slice_verbatim (s : pystr) :
  slice_to_last 1 (str_repr unicode_printable s) = s ->
  repr_verbatim unicode_printable s = true.
Proof.
  unfold str_repr, repr_verbatim. rewrite slice_to_last_1. intros H.
  apply flat_map_repr_length. now rewrite H.
Qed.

(** Every call that is built carries the URL expression it was given
    under [url] and [name]. *)
Lemma build_call_url (m : HttpMethod) (url : Expression)
    (headers : dict pystr) (post_data : dict PyVal)
    (query : list QueryPair.t) (call : Expression) :
  build_call m url headers post_data query = Ok call ->
  exists args,
    call = FunctionCall (client_method m) args
    /\ dict_lookup (pystr_of "url") args = Some url
    /\ dict_lookup (pystr_of "name") args = Some url.
Proof.
  unfold build_call.
  destruct m; cbn [HttpMethod_eqb method_in NOOP_HTTP_METHODS existsb
                   negb orb bind];
    try discriminate;
    try (intros [= <-]; eexists; repeat split; reflexivity).
  - destruct (RequestsPostData_from_har_post_data json_loads post_data)
      as [[d p j]|e0]; cbn [bind]; [|discriminate].
    intros [= <-]. eexists. split; [reflexivity|].
    destruct d, p, j; split; reflexivity.
  - destruct (RequestsPostData_from_har_post_data json_loads post_data)
      as [[d p j]|e0]; cbn [bind]; [|discriminate].
    destruct d, p, j; cbn -[literal_value_extend];
      match goal with
      | |- context [literal_value_extend ?x ?a] =>
          destruct (literal_value_extend x a) as [p'|err]
      end; cbn; try discriminate;
      intros [= <-]; eexists; repeat split; reflexivity.
Qed.


(** For a method without payload the condition is also necessary. *)
Lemma same_call_needs_verbatim (r : Request.t) :
  method_in (Request.method r) NOOP_HTTP_METHODS = true ->
  req_to_expr json_loads zip_kv_pairs r
  = lreq_to_expr json_loads
      (LocustRequest_from_request unicode_printable zip_kv_pairs r) ->
  repr_verbatim unicode_printable (SplitResult.geturl (Request.url r))
  = true.
Proof.
  intros Hm. rewrite req_to_expr_build_call, lreq_to_expr_build_call.
  unfold lreq_url, LocustRequest_from_request; cbn [LocustRequest.url
    LocustRequest.method LocustRequest.headers LocustRequest.post_data
    LocustRequest.query].
  rewrite str_repr_not_fstring.
  destruct (build_call_noop (Request.method r)
              (Literal (VStr (SplitResult.geturl (Request.url r))))
              (zip_kv_pairs (Request.headers r)) (Request.post_data r)
              (Request.query r) Hm) as (args & Hb & _).
  rewrite Hb. intros H. symmetry in H.
  apply build_call_url in H. destruct H as (args' & Hc & Hu & _).
  injection Hc as <-.
  apply build_call_url in Hb. destruct Hb as (args2 & Hc2 & Hu2 & _).
  injection Hc2 as <-. rewrite Hu2 in Hu. injection Hu as Hu.
  now apply repr_slice_verbatim.
Qed.

(** C10.  The URL expression of a legacy descriptor.  With the [f]
    marker it is a template whose text is the URL without its first
    two and its last character; otherwise it is a literal whose text is
    the URL without its first and its last character.  Every call
    built from the descriptor carries that expression, a call is built
    for every descriptor with a payload-free method, and a deferred
    binding to a legacy override resolves to it.  A URL installed by
    [replace_url] is stored as given and stripped the same way. *)
Theorem C10_legacy_url (lr : LocustRequest.t) :
  let u := LocustRequest.url lr in
  (str_startswith u (pystr_of "f") = true ->
   lreq_url lr = FString (slice_to_last 2 u)
   /\ forall q c body, u = 102%N :: q :: body ++ [c] ->
                        slice_to_last 2 u = body)
  /\ (str_startswith u (pystr_of "f") = false ->
      lreq_url lr = Literal (VStr (slice_to_last 1 u))
      /\ forall a c body, u = a :: body ++ [c] -> slice_to_last 1 u = body)
  /\ (forall call,
        lreq_to_expr json_loads lr = Ok call ->
        exists args,
          call = FunctionCall (client_method (LocustRequest.method lr)) args
          /\ dict_lookup (pystr_of "url") args = Some (lreq_url lr)
          /\ dict_lookup (pystr_of "name") args = Some (lreq_url lr))
  /\ (method_in (LocustRequest.method lr) NOOP_HTTP_METHODS = true ->
      exists call, lreq_to_expr json_loads lr = Ok call)
  /\ (forall owner label task,
        Task.locust_request task = Some lr ->
        resolve json_loads zip_kv_pairs owner
          (ExpressionView label (thunk_task_locust_request task)
             conv_lreq_to_expr)
        = lreq_to_expr json_loads lr)
  /\ (forall task new_url,
        exists lr',
          Task.locust_request
            (Task_replace_url unicode_printable zip_kv_pairs task new_url)
          = Some lr'
          /\ LocustRequest.url lr' = new_url
          /\ lreq_url lr'
             = if str_startswith new_url (pystr_of "f")
               then FString (slice_to_last 2 new_url)
               else Literal (VStr (slice_to_last 1 new_url))).
Proof.
  intros u. unfold lreq_url. fold u.
  split; [|split; [|split; [|split; [|split]]]].
  - intros ->. split; [reflexivity|].
    intros q c body ->. apply slice_to_last_2.
  - intros ->. split; [reflexivity|].
    intros a c body ->. apply slice_to_last_1.
  - intros call. rewrite lreq_to_expr_build_call. apply build_call_url.
  - intros Hm. rewrite lreq_to_expr_build_call.
    destruct (build_call_noop (LocustRequest.method lr) (lreq_url lr)
                (LocustRequest.headers lr)
                (LocustRequest.post_data lr) (LocustRequest.query lr) Hm)
      as (args & Hb & _).
    eexists. exact Hb.
  - intros owner label task Ht. cbn. now rewrite Ht.
  - intros task new_url. eexists. split; [reflexivity|].
    split; reflexivity.
Qed.

(** *** The legacy task model *)

(** The override a mutation starts from: the one the task carries, or
    one derived from the Request. *)
Definition materialized (self : Task.t) : LocustRequest.t :=
  match Task.locust_request self with
  | None =>
      LocustRequest_from_request unicode_printable zip_kv_pairs
        (Task.request self)
  | Some lr => lr
  end.



(** *** The new task model *)

(** C8.  [Task2.from_task] returns a task with the legacy task's name
    and Request whose statements are the pre-processing fragments as
    opaque blocks, in order, the assignment of [response] to a
    deferred binding labelled "this task's request field", and the
    post-processing fragments as opaque blocks, in order.  The binding
    reads the legacy override when the legacy task carries one, and
    then resolves through [lreq_to_expr]; otherwise it reads the
    [request] field of the task that owns it and resolves through
    [req_to_expr]. *)
Theorem C8_from_task (task : Task.t) :
  exists t view,
    Task2_from_task task = Ok t
    /\ Task2.name t = Task.name task
    /\ Task2.request t = Task.request task
    /\ Task2.statements t
       = map OpaqueBlock (Task.locust_preprocessing task)
         ++ [Assignment (pystr_of "response") view]
         ++ map OpaqueBlock (Task.locust_postprocessing task)
    /\ match Task.locust_request task with
       | Some lr =>
           view = ExpressionView (pystr_of "this task's request field")
                    (thunk_task_locust_request task) conv_lreq_to_expr
           /\ forall owner,
                resolve json_loads zip_kv_pairs owner view
                = lreq_to_expr json_loads lr
       | None =>
           view = ExpressionView (pystr_of "this task's request field")
                    thunk_own_request conv_req_to_expr
           /\ (forall owner,
                  resolve json_loads zip_kv_pairs owner view
                  = req_to_expr json_loads zip_kv_pairs (Task2.request owner))
           /\ resolve json_loads zip_kv_pairs t view
              = req_to_expr json_loads zip_kv_pairs (Task.request task)
       end.
Proof.
  unfold Task2_from_task. cbn [Task2_init py_list bind].
  destruct (Task.locust_request task) as [lr|] eqn:Hlr;
    eexists; eexists; (split; [reflexivity|]);
    cbn [Task2.name Task2.request Task2.statements];
    repeat split; try reflexivity.
  intros owner. cbn. now rewrite Hlr.
Qed.

(** *** The collection pipeline *)

(** A request that passes the blacklist. *)
Definition kept (r : Request.t) : bool :=
  negb (on_blacklist (SplitResult.netloc (Request.url r))).







Definition ellipsis_error : Exn :=
  MkExn TypeError [Txt "'ellipsis' object is not iterable"] None.

Lemma Task2_from_requests_loop_spec (reqs : list Request.t) :
  Task2_from_requests_loop on_blacklist task_name reqs
  = {| yielded := [];
       raised := if existsb kept reqs then Some ellipsis_error else None |}.
Proof.
  induction reqs as [|r l IH]; cbn [Task2_from_requests_loop existsb];
    [reflexivity|].
  unfold kept at 1.
  destruct (on_blacklist (SplitResult.netloc (Request.url r)));
    cbn [negb orb]; [exact IH|reflexivity].
Qed.

(** C2.  What [Task2.from_requests] does: building the first Task2 for
    a Request that passes the blacklist calls [list(...)] on the
    [Ellipsis] placeholder, so the generator yields no task at all and
    ends with a [TypeError] as soon as one Request passes; it ends
    normally only when every Request is blacklisted. *)
Theorem C2_task2_from_requests (requests : list Request.t) :
  let d := Task2_from_requests on_blacklist task_name requests in
  yielded d = []
  /\ (raised d = Some ellipsis_error <->
      exists r, In r requests /\ kept r = true)
  /\ (raised d = None <-> forall r, In r requests -> kept r = false).
Proof.
  unfold Task2_from_requests. rewrite Task2_from_requests_loop_spec.
  cbn [yielded raised]. split; [reflexivity|].
  destruct (existsb kept (sorted requests Request.timestamp)) eqn:He.
  - apply existsb_exists in He. destruct He as (r & Hin & Hk).
    apply In_sorted in Hin. split; split; try discriminate.
    + intros _. now exists r.
    + reflexivity.
    + intros H. rewrite (H r Hin) in Hk. discriminate.
  - split; split; try discriminate; try reflexivity.
    + intros (r & Hin & Hk).
      assert (existsb kept (sorted requests Request.timestamp) = true).
      { apply existsb_exists. exists r. split; [|assumption].
        now apply In_sorted. }
      congruence.
    + intros _ r Hin. destruct (kept r) eqn:Hk; [|reflexivity].
      assert (existsb kept (sorted requests Request.timestamp) = true).
      { apply existsb_exists. exists r. split; [|assumption].
        now apply In_sorted. }
      congruence.
Qed.


End Properties.

(** ** Runs on concrete inputs *)

Module Runs.

Import Samples.

Definition a_1 : PyVal :=
  pairs_value [([Byte.x61], [Byte.x31])].

Definition a_1_page_2 : PyVal :=
  pairs_value [([Byte.x61], [Byte.x31]);
               ([Byte.x70; Byte.x61; Byte.x67; Byte.x65], [Byte.x32])].

(** The accepted form payload: both [data] and [params]. *)
Definition rpd_form : RequestsPostData.t :=
  {| RequestsPostData.data :=
       Some (Literal (VBytes [Byte.x61; Byte.x3d; Byte.x31]));
     RequestsPostData.params := Some (Literal a_1);
     RequestsPostData.json := None |}.

(** The accepted text payload: [data] only. *)
Definition rpd_text : RequestsPostData.t :=
  {| RequestsPostData.data := Some (Literal (VBytes [Byte.x61]));
     RequestsPostData.params := None;
     RequestsPostData.json := None |}.

(** The accepted JSON payload with parameters: [json] and [params]. *)
Definition rpd_json_params : RequestsPostData.t :=
  {| RequestsPostData.data := None;
     RequestsPostData.params := Some (Literal a_1);
     RequestsPostData.json := Some (Literal (VInt 1)) |}.

Definition x_token : dict pystr :=
  [(pystr_of "X-Token", pystr_of "abc"); (pystr_of "Accept", pystr_of "text/html")].

Definition req (r : Request.t) : result Expression :=
  req_to_expr json_loads zip_kv_pairs r.

Definition lreq (lr : LocustRequest.t) : result Expression :=
  lreq_to_expr json_loads lr.

Definition derived (r : Request.t) : LocustRequest.t :=
  LocustRequest_from_request unicode_printable zip_kv_pairs r.

Definition har (pd : dict PyVal) : result RequestsPostData.t :=
  RequestsPostData_from_har_post_data json_loads pd.

End Runs.

Example form_payload_has_data_and_params :
  Runs.har Samples.pd_form = Ok Runs.rpd_form.
Proof. reflexivity. Qed.

Example json_payload_has_json_and_params :
  Runs.har Samples.pd_json_params = Ok Runs.rpd_json_params.
Proof. reflexivity. Qed.

Example put_with_payload_params_appends_query :
  exists call,
    Runs.req Samples.put_form = Ok call
    /\ call_params call = Some (Literal Runs.a_1_page_2).
Proof. eexists. split; reflexivity. Qed.

Example put_without_payload_params_raises :
  Runs.req Samples.put_text = Raise no_extend
  /\ Runs.lreq (Runs.derived Samples.put_text) = Raise no_extend.
Proof. split; reflexivity. Qed.

Example patch_is_unsupported :
  Runs.req Samples.patch_home = Raise (unsupported_method PATCH).
Proof. reflexivity. Qed.

Example task2_from_one_request :
  Task2_from_requests Samples.on_blacklist Samples.task_name [Samples.get_home]
  = {| yielded := []; raised := Some ellipsis_error |}.
Proof. reflexivity. Qed.

Example task_from_three_requests :
  map (@Task.request)
    (Task_from_requests Samples.on_blacklist Samples.task_name
       [Samples.get_home; Samples.get_ad; Samples.get_early])
  = [Samples.get_early; Samples.get_home].
Proof. reflexivity. Qed.

Example replaced_url_is_stripped :
  match Task.locust_request
          (Task_replace_url Samples.unicode_printable Samples.zip_kv_pairs
             Samples.legacy_task (pystr_of "http://x.org/"))
  with
  | Some lr => lreq_url lr = Literal (VStr (pystr_of "ttp://x.org"))
  | None => False
  end.
Proof. reflexivity. Qed.

Lemma C1_put_params_witness :
  (Runs.req Samples.put_text = Raise no_extend
   /\ Runs.lreq (Runs.derived Samples.put_text) = Raise no_extend)
  /\ exists ps,
      Literal Runs.a_1 = Literal (pairs_value ps)
      /\ forall qs,
          Forall2 encodes_to (Request.query Samples.put_form) qs ->
          (exists call,
              Runs.req Samples.put_form = Ok call
              /\ call_params call = Some (Literal (pairs_value (ps ++ qs))))
          /\ (exists call,
                 Runs.lreq (Runs.derived Samples.put_form) = Ok call
                 /\ call_params call
                    = Some (Literal (pairs_value (ps ++ qs)))).
Proof.
  split.
  - exact (C1_put_params Samples.json_loads Samples.zip_kv_pairs
             Samples.put_text (Runs.derived Samples.put_text)
             (rpd := Runs.rpd_text)
             eq_refl eq_refl eq_refl eq_refl eq_refl).
  - exact (C1_put_params Samples.json_loads Samples.zip_kv_pairs
             Samples.put_form (Runs.derived Samples.put_form)
             (rpd := Runs.rpd_form)
             eq_refl eq_refl eq_refl eq_refl eq_refl).
Defined.



Lemma C4_method_dispatch_witness :
  (exists args,
      Runs.req Samples.get_home
      = Ok (FunctionCall (pystr_of "self.client.get") args)
      /\ dict_keys args = base_keys /\ payload_free args)
  /\ Runs.req Samples.patch_home = Raise (unsupported_method PATCH).
Proof.
  split.
  - exact (proj1 (C4_method_dispatch Samples.json_loads Samples.zip_kv_pairs
                    Samples.get_home (Runs.derived Samples.get_home))
             eq_refl).
  - exact (proj1 (proj2 (C4_method_dispatch Samples.json_loads
                           Samples.zip_kv_pairs Samples.patch_home
                           (Runs.derived Samples.patch_home)))
             eq_refl).
Defined.

Definition no_encode : Exn :=
  MkExn AttributeError [Txt "object has no attribute 'encode'"] None.




Example number_as_text_escapes :
  Runs.har Samples.pd_text_number = Raise no_encode.
Proof. reflexivity. Qed.


Lemma x_token_keys_distinct : NoDup (dict_keys Runs.x_token).
Proof.
  repeat constructor; cbn; intros H;
    repeat (destruct H as [H|H]; [discriminate H|]); exact H.
Defined.


Lemma C10_legacy_url_witness :
  lreq_url (Runs.derived Samples.get_home)
  = Literal (VStr (slice_to_last 1
                     (LocustRequest.url (Runs.derived Samples.get_home))))
  /\ exists call, Runs.lreq (Runs.derived Samples.get_home) = Ok call.
Proof.
  split.
  - exact (proj1 (proj1 (proj2 (C10_legacy_url Samples.unicode_printable
                                  Samples.json_loads Samples.zip_kv_pairs
                                  (Runs.derived Samples.get_home)))
                    eq_refl)).
  - exact (proj1 (proj2 (proj2 (proj2
             (C10_legacy_url Samples.unicode_printable Samples.json_loads
                Samples.zip_kv_pairs (Runs.derived Samples.get_home)))))
             eq_refl).
Defined.

(** ** Further properties of the module *)

Section Extras.

Set Default Proof Using "Type".

Variable unicode_printable : codepoint -> bool.
Variable json_loads : PyVal -> result PyVal.
Variable zip_kv_pairs : list Header.t -> dict pystr.
Variable on_blacklist : pystr -> bool.
Variable task_name : Request.t -> pystr.

(** *** Keyword arguments *)

Definition payload_keys : list pystr :=
  map pystr_of ["data"; "params"; "json"]%string.

(** The five arguments every call starts with. *)
Definition base_args (url : Expression) (headers : dict pystr)
  : dict Expression :=
  [(pystr_of "url", url);
   (pystr_of "name", url);
   (pystr_of "headers", Literal (mapping_value headers));
   (pystr_of "timeout", Literal (VInt 30));
   (pystr_of "allow_redirects", Literal (VBool false))].

(** X1.  [as_kwargs] holds exactly the fields that are set: looking a
    field name up gives the field, and the keys are the names of the set
    fields in the order data, params, json. *)
Theorem X1_as_kwargs_fields (self : RequestsPostData.t) :
  let kw := RequestsPostData_as_kwargs self in
  dict_lookup (pystr_of "data") kw = RequestsPostData.data self
  /\ dict_lookup (pystr_of "params") kw = RequestsPostData.params self
  /\ dict_lookup (pystr_of "json") kw = RequestsPostData.json self
  /\ dict_keys kw = filter (fun k => dict_contains k kw) payload_keys.
Proof.
  destruct self as [[d|] [p|] [j|]]; repeat split; reflexivity.
Qed.

Lemma dict_update_base_as_kwargs (url : Expression) (headers : dict pystr)
    (rpd : RequestsPostData.t) :
  dict_update (base_args url headers) (RequestsPostData_as_kwargs rpd)
  = base_args url headers ++ RequestsPostData_as_kwargs rpd.
Proof. destruct rpd as [[d|] [p|] [j|]]; reflexivity. Qed.

Lemma build_call_post (url : Expression) (headers : dict pystr)
    (post_data : dict PyVal) (query : list QueryPair.t) :
  build_call json_loads POST url headers post_data query
  = match RequestsPostData_from_har_post_data json_loads post_data with
    | Ok rpd =>
        Ok (FunctionCall (pystr_of "self.client.post")
              (base_args url headers ++ RequestsPostData_as_kwargs rpd))
    | Raise e => Raise e
    end.
Proof.
  unfold build_call. cbn [HttpMethod_eqb].
  destruct (RequestsPostData_from_har_post_data json_loads post_data)
    as [rpd|e]; cbn [bind]; [|reflexivity].
  change (Ok (FunctionCall (pystr_of "self.client.post")
                (dict_update (base_args url headers)
                   (RequestsPostData_as_kwargs rpd)))
          = Ok (FunctionCall (pystr_of "self.client.post")
                  (base_args url headers ++ RequestsPostData_as_kwargs rpd))).
  now rewrite dict_update_base_as_kwargs.
Qed.

(** X2.  A POST call is built exactly when the payload descriptor is
    accepted: its arguments are the five base arguments followed by the
    payload fields that are set, the query pairs play no part, and a
    failure of the payload interpreter is the failure of the builder,
    unchanged.  The same holds on the legacy path. *)
Theorem X2_post_call (r : Request.t) (lr : LocustRequest.t) :
  Request.method r = POST ->
  LocustRequest.method lr = POST ->
  req_to_expr json_loads zip_kv_pairs r
  = match RequestsPostData_from_har_post_data json_loads
            (Request.post_data r) with
    | Ok rpd =>
        Ok (FunctionCall (pystr_of "self.client.post")
              (base_args (Literal (VStr (SplitResult.geturl (Request.url r))))
                 (zip_kv_pairs (Request.headers r))
               ++ RequestsPostData_as_kwargs rpd))
    | Raise e => Raise e
    end
  /\ lreq_to_expr json_loads lr
     = match RequestsPostData_from_har_post_data json_loads
               (LocustRequest.post_data lr) with
       | Ok rpd =>
           Ok (FunctionCall (pystr_of "self.client.post")
                 (base_args (lreq_url lr) (LocustRequest.headers lr)
                  ++ RequestsPostData_as_kwargs rpd))
       | Raise e => Raise e
       end.
Proof.
  intros Hr Hlr.
  rewrite req_to_expr_build_call, lreq_to_expr_build_call, Hr, Hlr.
  split; apply build_call_post.
Qed.

(** Every call that is built starts with the five base arguments, and
    the keys after them are payload keys in the order data, params,
    json. *)
Lemma build_call_args (m : HttpMethod) (url : Expression)
    (headers : dict pystr) (post_data : dict PyVal)
    (query : list QueryPair.t) (call : Expression) :
  build_call json_loads m url headers post_data query = Ok call ->
  exists args,
    call = FunctionCall (client_method m) args
    /\ firstn 5 args = base_args url headers
    /\ dict_keys (skipn 5 args)
       = filter (fun k => dict_contains k args) payload_keys.
Proof.
  unfold build_call.
  destruct m; cbn [HttpMethod_eqb method_in NOOP_HTTP_METHODS existsb
                   negb orb bind];
    try discriminate;
    try (intros [= <-]; eexists; repeat split; reflexivity).
  - destruct (RequestsPostData_from_har_post_data json_loads post_data)
      as [[d p j]|e0]; cbn [bind]; [|discriminate].
    intros [= <-]. eexists. split; [reflexivity|].
    destruct d, p, j; split; reflexivity.
  - destruct (RequestsPostData_from_har_post_data json_loads post_data)
      as [[d p j]|e0]; cbn [bind]; [|discriminate].
    destruct d, p, j; try (cbn; discriminate);
      cbn -[literal_value_extend];
      match goal with
      | |- context [literal_value_extend ?x ?a] =>
          destruct (literal_value_extend x a) as [p'|err]
      end; cbn; try discriminate;
      intros [= <-]; eexists; repeat split; reflexivity.
Qed.

(** X3.  Whatever the method and the payload, a call that is built
    starts with the arguments url, name, headers, timeout (30) and
    allow_redirects (False), in this order, with the headers of the
    request; what follows are payload keys only, in the order data,
    params, json.  So no payload field ever replaces a base argument. *)
Theorem X3_base_arguments_first (r : Request.t) (lr : LocustRequest.t)
    (call : Expression) :
  (req_to_expr json_loads zip_kv_pairs r = Ok call ->
   exists args,
     call = FunctionCall (client_method (Request.method r)) args
     /\ firstn 5 args
        = base_args (Literal (VStr (SplitResult.geturl (Request.url r))))
            (zip_kv_pairs (Request.headers r))
     /\ dict_keys (skipn 5 args)
        = filter (fun k => dict_contains k args) payload_keys)
  /\ (lreq_to_expr json_loads lr = Ok call ->
      exists args,
        call = FunctionCall (client_method (LocustRequest.method lr)) args
        /\ firstn 5 args = base_args (lreq_url lr) (LocustRequest.headers lr)
        /\ dict_keys (skipn 5 args)
           = filter (fun k => dict_contains k args) payload_keys).
Proof.
  rewrite req_to_expr_build_call, lreq_to_expr_build_call.
  split; apply build_call_args.
Qed.

(** *** The payload interpreter *)

Definition unreadable_params (err : Exn) : Exn :=
  MkExn ValueError [Txt "unreadable params field"] (Some err).

Definition params_not_a_list : Exn :=
  MkExn TypeError
    [Txt "the "; repr_key "params"; Txt " field should be a list"] None.

Definition is_list (v : PyVal) : bool :=
  match v with
  | VList _ => true
  | _ => false
  end.

(** A failure of the parameter stage that the stage catches leaves the
    public entry point wrapped twice. *)
Lemma params_stage_failure (pd : dict PyVal) (mime : PyVal)
    (rpd1 : RequestsPostData.t) (err : Exn) :
  dict_lookup (pystr_of "mimeType") pd = Some mime ->
  _extract_text json_loads mime pd "text" RequestsPostData_empty = Ok rpd1 ->
  _params_from_post_data "params" pd = Raise err ->
  params_caught err = true ->
  RequestsPostData_from_har_post_data json_loads pd
  = Raise (invalid_payload pd (unreadable_params err)).
Proof.
  intros Hm Hx Hp Hc.
  assert (Hin : dict_contains (pystr_of "params") pd = true).
  { revert Hp. unfold _params_from_post_data, dict_get, dict_contains.
    cbv zeta. destruct (dict_lookup (pystr_of "params") pd);
      [reflexivity|discriminate]. }
  unfold RequestsPostData_from_har_post_data, _from_har_post_data.
  rewrite Hm; cbn [bind]. rewrite Hin, andb_false_r, Hx; cbn [bind].
  rewrite Hp; cbn [bind try_except].
  unfold params_caught in Hc. rewrite Hc. reflexivity.
Qed.

(** X4.  When the MIME type is there and the body text is accepted, a
    [params] field that is neither [None] nor a list makes the public
    entry point raise the invalid-payload error, whose cause is
    "unreadable params field", whose cause in turn is the [TypeError]
    "the 'params' field should be a list". *)
Theorem X4_params_not_a_list (pd : dict PyVal) (mime : PyVal)
    (rpd1 : RequestsPostData.t) :
  dict_lookup (pystr_of "mimeType") pd = Some mime ->
  _extract_text json_loads mime pd "text" RequestsPostData_empty = Ok rpd1 ->
  is_none (dict_get (pystr_of "params") pd) = false ->
  is_list (dict_get (pystr_of "params") pd) = false ->
  RequestsPostData_from_har_post_data json_loads pd
  = Raise (invalid_payload pd (unreadable_params params_not_a_list)).
Proof.
  intros Hm Hx Hn Hl.
  apply params_stage_failure with (mime := mime) (rpd1 := rpd1);
    try assumption; [|reflexivity].
  unfold _params_from_post_data. cbv zeta.
  destruct (dict_get (pystr_of "params") pd); try discriminate; reflexivity.
Qed.

(** X5.  When the MIME type is there and the body text is accepted, a
    parameter list with an element that has no name or no value, is not
    a mapping, or has a name or value that cannot be encoded (a
    [KeyError], [TypeError] or [UnicodeEncodeError]) makes the public
    entry point raise the invalid-payload error, whose cause is
    "unreadable params field", whose cause in turn is that error. *)
Theorem X5_params_element_failure (pd : dict PyVal) (mime : PyVal)
    (rpd1 : RequestsPostData.t) (items : list PyVal) (err : Exn) :
  dict_lookup (pystr_of "mimeType") pd = Some mime ->
  _extract_text json_loads mime pd "text" RequestsPostData_empty = Ok rpd1 ->
  dict_get (pystr_of "params") pd = VList items ->
  _params_from_name_value_dicts items = Raise err ->
  params_caught err = true ->
  RequestsPostData_from_har_post_data json_loads pd
  = Raise (invalid_payload pd (unreadable_params err)).
Proof.
  intros Hm Hx Hl Hp Hc.
  apply params_stage_failure with (mime := mime) (rpd1 := rpd1);
    try assumption.
  unfold _params_from_post_data. cbv zeta. rewrite Hl. cbn [is_none].
  now rewrite Hp.
Qed.

Lemma bind_Ok {A} (c : result A) : (x <- c ;; Ok x) = c.
Proof. now destruct c. Qed.

(** X6.  Parameters are converted element by element, in order: the
    conversion of two lists one after the other is the conversion of the
    first followed by that of the second (so the first element that
    fails decides the error), and a converted list has one pair per
    element. *)
Theorem X6_params_in_order (l1 l2 : list PyVal) :
  _params_from_name_value_dicts (l1 ++ l2)
  = (a <- _params_from_name_value_dicts l1 ;;
     b <- _params_from_name_value_dicts l2 ;;
     Ok (a ++ b))
  /\ forall ps,
       _params_from_name_value_dicts l1 = Ok ps ->
       List.length ps = List.length l1.
Proof.
  split.
  - induction l1 as [|d l1 IH]; cbn [app _params_from_name_value_dicts bind].
    + cbn [app]. now rewrite bind_Ok.
    + destruct (py_getitem d (pystr_of "name")) as [n|e]; cbn [bind];
        [|reflexivity].
      destruct (py_encode n) as [nb|e]; cbn [bind]; [|reflexivity].
      destruct (py_getitem d (pystr_of "value")) as [v|e]; cbn [bind];
        [|reflexivity].
      destruct (py_encode v) as [vb|e]; cbn [bind]; [|reflexivity].
      rewrite IH.
      destruct (_params_from_name_value_dicts l1) as [a|e]; cbn [bind];
        [|reflexivity].
      destruct (_params_from_name_value_dicts l2) as [b|e]; cbn [bind];
        reflexivity.
  - induction l1 as [|d l1 IH]; cbn [_params_from_name_value_dicts];
      intros ps.
    + now intros [= <-].
    + destruct (py_getitem d (pystr_of "name")) as [n|e]; cbn [bind];
        [|discriminate].
      destruct (py_encode n) as [nb|e]; cbn [bind]; [|discriminate].
      destruct (py_getitem d (pystr_of "value")) as [v|e]; cbn [bind];
        [|discriminate].
      destruct (py_encode v) as [vb|e]; cbn [bind]; [|discriminate].
      destruct (_params_from_name_value_dicts l1) as [a|e]; cbn [bind];
        [|discriminate].
      intros [= <-]. cbn [List.length]. now rewrite (IH a).
Qed.

(** X7.  A field that is there with the value [None] counts as present
    for the check that asks for a body text or a parameter list, and as
    absent afterwards: a descriptor with a MIME type other than
    [application/json] whose [text] and [params] are [None] or missing,
    one of the two keys being there, is accepted with no output at
    all, and a POST call built from it has the five base arguments
    only. *)
Theorem X7_null_fields_accepted (pd : dict PyVal) (mime : PyVal)
    (url : Expression) (headers : dict pystr) (query : list QueryPair.t) :
  dict_lookup (pystr_of "mimeType") pd = Some mime ->
  py_eq_str mime JSON_MIME_TYPE = false ->
  dict_contains (pystr_of "text") pd
  || dict_contains (pystr_of "params") pd = true ->
  is_none (dict_get (pystr_of "text") pd) = true ->
  is_none (dict_get (pystr_of "params") pd) = true ->
  RequestsPostData_from_har_post_data json_loads pd
  = Ok RequestsPostData_empty
  /\ build_call json_loads POST url headers pd query
     = Ok (FunctionCall (pystr_of "self.client.post")
             (base_args url headers)).
Proof.
  intros Hm Hj Hin Ht Hp.
  assert (H : RequestsPostData_from_har_post_data json_loads pd
              = Ok RequestsPostData_empty).
  { unfold RequestsPostData_from_har_post_data, _from_har_post_data.
    rewrite Hm; cbn [bind].
    apply orb_true_iff in Hin.
    assert (Hc : negb (dict_contains (pystr_of "text") pd)
                 && negb (dict_contains (pystr_of "params") pd) = false).
    { destruct Hin as [-> | ->]; [reflexivity|apply andb_false_r]. }
    rewrite Hc. unfold _extract_text, _params_from_post_data. cbv zeta.
    rewrite Hj, Ht, Hp. reflexivity. }
  split; [exact H|]. rewrite build_call_post, H. reflexivity.
Qed.

(** X8.  Only the exact MIME type [application/json] gives a [json]
    output.  For any other MIME type (also one that merely starts with
    it) an accepted descriptor has no [json]; its [data] is absent when
    the body text is [None] or missing, and is the UTF-8 encoding of the
    body text otherwise; a body text that is not a string is never
    accepted. *)
Theorem X8_other_mime_gives_data (pd : dict PyVal) (mime : PyVal)
    (rpd : RequestsPostData.t) :
  dict_lookup (pystr_of "mimeType") pd = Some mime ->
  py_eq_str mime JSON_MIME_TYPE = false ->
  RequestsPostData_from_har_post_data json_loads pd = Ok rpd ->
  RequestsPostData.json rpd = None
  /\ match dict_get (pystr_of "text") pd with
     | VNone => RequestsPostData.data rpd = None
     | VStr s =>
         exists b,
           utf8_encode s = Some b
           /\ RequestsPostData.data rpd = Some (Literal (VBytes b))
     | _ => False
     end.
Proof.
  intros Hm Hj H.
  apply from_har_post_data_ok, _from_har_post_data_ok in H.
  destruct H as (mime' & rpd1 & ops & Hm' & Hx & _ & Hd & Hjs & _).
  rewrite Hm in Hm'. injection Hm' as <-.
  apply _extract_text_ok in Hx. rewrite Hj in Hx. rewrite Hd, Hjs.
  destruct Hx as [(Hf & _)|[(_ & Hn & b & Hb & ->)|(_ & Hn & ->)]];
    [discriminate| |].
  - split; [reflexivity|].
    destruct (dict_get (pystr_of "text") pd); try discriminate.
    cbn in Hb. destruct (utf8_encode s) as [b'|]; [|discriminate].
    injection Hb as <-. now exists b'.
  - split; [reflexivity|].
    destruct (dict_get (pystr_of "text") pd); try discriminate.
    reflexivity.
Qed.

(** A lone surrogate code point. *)
Definition is_surrogate (c : codepoint) : bool :=
  (0xD800 <=? c)%N && (c <=? 0xDFFF)%N.

Lemma utf8_encode_char_none (c : codepoint) :
  utf8_encode_char c = None <-> is_surrogate c = true.
Proof.
  unfold utf8_encode_char, is_surrogate.
  destruct (N.ltb_spec c 0x80); [split; [discriminate|]|].
  { intros H0. apply andb_prop in H0 as [H0 _]. apply N.leb_le in H0. lia. }
  destruct (N.ltb_spec c 0x800); [split; [discriminate|]|].
  { intros H1. apply andb_prop in H1 as [H1 _]. apply N.leb_le in H1. lia. }
  destruct (N.ltb_spec c 0x10000).
  - destruct ((0xD800 <=? c)%N && (c <=? 0xDFFF)%N);
      split; try reflexivity; discriminate.
  - split; [discriminate|].
    intros H2. apply andb_prop in H2 as [_ H2]. apply N.leb_le in H2. lia.
Qed.

Lemma utf8_encode_none (s : pystr) :
  utf8_encode s = None <-> existsb is_surrogate s = true.
Proof.
  induction s as [|c s IH]; cbn [utf8_encode existsb];
    [split; discriminate|].
  rewrite orb_true_iff, <- IH, <- utf8_encode_char_none.
  destruct (utf8_encode_char c), (utf8_encode s); split; intros H;
    try reflexivity; try discriminate; auto;
    destruct H; discriminate.
Qed.

Definition encode_error : Exn :=
  MkExn UnicodeEncodeError
    [Txt "'utf-8' codec can't encode: surrogates not allowed"] None.

Definition cannot_encode_text (err : Exn) : Exn :=
  MkExn ValueError
    [Txt "cannot encode the "; repr_key "text"; Txt " field in UTF-8"]
    (Some err).

(** X9.  For a MIME type other than [application/json] and a body text
    that is a string: when the text has a lone surrogate the public
    entry point raises the invalid-payload error around "cannot encode
    the 'text' field in UTF-8" around the [UnicodeEncodeError]; when it
    has none, the text stage gives [data] and nothing else. *)
Theorem X9_text_encoding (pd : dict PyVal) (mime : PyVal) (s : pystr) :
  dict_lookup (pystr_of "mimeType") pd = Some mime ->
  py_eq_str mime JSON_MIME_TYPE = false ->
  dict_get (pystr_of "text") pd = VStr s ->
  (existsb is_surrogate s = true ->
   RequestsPostData_from_har_post_data json_loads pd
   = Raise (invalid_payload pd (cannot_encode_text encode_error)))
  /\ (existsb is_surrogate s = false ->
      exists b,
        utf8_encode s = Some b
        /\ _extract_text json_loads mime pd "text" RequestsPostData_empty
           = Ok (rpd_data_only b)).
Proof.
  intros Hm Hj Ht.
  assert (Hin : dict_contains (pystr_of "text") pd = true).
  { apply dict_get_not_none. now rewrite Ht. }
  split; intros Hs.
  - apply utf8_encode_none in Hs.
    unfold RequestsPostData_from_har_post_data, _from_har_post_data.
    rewrite Hm; cbn [bind]. rewrite Hin. cbn [negb andb].
    unfold _extract_text. cbv zeta. rewrite Hj, Ht.
    cbn [is_none negb py_encode]. rewrite Hs. reflexivity.
  - destruct (utf8_encode s) as [b|] eqn:Hb.
    + exists b. split; [reflexivity|].
      unfold _extract_text. cbv zeta. rewrite Hj, Ht.
      cbn [is_none negb py_encode]. rewrite Hb. reflexivity.
    + apply utf8_encode_none in Hb. congruence.
Qed.

(** *** The legacy descriptor *)

(** X10.  The URL expression of a descriptor derived from a Request is
    always a plain literal, never a template, also for a URL that starts
    with the letter f: its text is the URL with the escapes of [repr]
    (for its choice of quote) in place of the characters that [repr]
    escapes. *)
Theorem X10_derived_url_is_literal (r : Request.t) :
  let u := SplitResult.geturl (Request.url r) in
  lreq_url (LocustRequest_from_request unicode_printable zip_kv_pairs r)
  = Literal (VStr (flat_map (repr_char unicode_printable
                               (repr_quote u)) u)).
Proof.
  intros u. unfold lreq_url, LocustRequest_from_request.
  cbn [LocustRequest.url]. fold u.
  rewrite str_repr_not_fstring. unfold str_repr.
  now rewrite slice_to_last_1.
Qed.

(** *** Query pairs of a PUT request *)

Definition unencodable (q : QueryPair.t) : Prop :=
  utf8_encode (QueryPair.name q) = None
  \/ utf8_encode (QueryPair.value q) = None.

Lemma query_params_error (query : list QueryPair.t) :
  Exists unencodable query ->
  _params_from_name_value_dicts (map QueryPair_asdict query)
  = Raise encode_error.
Proof.
  induction query as [|q query IH]; intros H; [inversion H|].
  cbn [map _params_from_name_value_dicts].
  unfold QueryPair_asdict at 1, py_getitem at 1; cbn.
  destruct (utf8_encode (QueryPair.name q)) as [nb|] eqn:Hn; cbn;
    [|reflexivity].
  destruct (utf8_encode (QueryPair.value q)) as [vb|] eqn:Hv; cbn;
    [|reflexivity].
  rewrite IH; [reflexivity|].
  inversion H as [? ? [Hq|Hq]|]; subst; [congruence|congruence|assumption].
Qed.

(** X11.  In a PUT request whose payload is accepted and has
    parameters, a query pair whose name or value cannot be encoded (a
    lone surrogate) makes the builder raise the bare
    [UnicodeEncodeError]: the query pairs are encoded outside the
    payload interpreter, so the error is not turned into the
    invalid-payload error. *)
Theorem X11_put_query_encode_error (r : Request.t)
    (rpd : RequestsPostData.t) (lit : Expression) :
  Request.method r = PUT ->
  RequestsPostData_from_har_post_data json_loads (Request.post_data r)
    = Ok rpd ->
  RequestsPostData.params rpd = Some lit ->
  Exists unencodable (Request.query r) ->
  req_to_expr json_loads zip_kv_pairs r = Raise encode_error.
Proof.
  intros Hm Hpd Hp Hq.
  destruct (accepted_params_shape _ _ Hpd) as [Hnone|[ps Hps]];
    [congruence|].
  apply query_params_error in Hq.
  unfold req_to_expr. rewrite Hm, Hpd.
  destruct rpd as [d p j]; cbn in Hps; subst p.
  destruct d, j; cbn; rewrite Hq; reflexivity.
Qed.

(** *** Mutations of a legacy task *)

(** X12.  The two mutations compose as updates of one override:
    replacing the URL and injecting headers commute, of two URL
    replacements the last one stands, and injecting no header installs
    the override the task had, or the one derived from its Request,
    unchanged. *)
Theorem X12_mutations_compose (self : Task.t) (headers : dict pystr)
    (url url' : pystr) :
  let inject := Task_inject_headers unicode_printable zip_kv_pairs in
  let replace := Task_replace_url unicode_printable zip_kv_pairs in
  replace (inject self headers) url = inject (replace self url) headers
  /\ replace (replace self url) url' = replace self url'
  /\ Task.locust_request (inject self [])
     = Some (materialized unicode_printable zip_kv_pairs self).
Proof.
  cbv zeta. unfold materialized.
  destruct self as [n r [[m u h pd q]|] pre post g]; repeat split.
Qed.

Lemma dict_contains_set {V} (k k' : pystr) (v : V) (d : dict V) :
  dict_contains k (dict_set k' v d) = pystr_eqb k' k || dict_contains k d.
Proof.
  unfold dict_contains. rewrite dict_lookup_set.
  now destruct (pystr_eqb k' k).
Qed.

Lemma dict_keys_set {V} (k : pystr) (v : V) (d : dict V) :
  dict_keys (dict_set k v d)
  = if dict_contains k d then dict_keys d else dict_keys d ++ [k].
Proof.
  unfold dict_keys, dict_contains.
  induction d as [|[k0 v0] d IH]; cbn [dict_set dict_lookup map app];
    [reflexivity|].
  destruct (pystr_eqb k0 k); cbn [map fst]; [reflexivity|].
  rewrite IH. now destruct (dict_lookup k d).
Qed.

(** In a merge the keys of the left dictionary keep their places and the
    new keys follow in the order of the right one. *)
Lemma dict_update_keys {V} (d other : dict V) :
  NoDup (dict_keys other) ->
  dict_keys (dict_update d other)
  = dict_keys d
    ++ filter (fun k => negb (dict_contains k d)) (dict_keys other).
Proof.
  unfold dict_update. revert d.
  induction other as [|[k v] other IH]; intros d Hnd.
  - cbn [fold_left]. change (dict_keys (@nil (pystr * V))) with (@nil pystr).
    cbn [filter]. now rewrite app_nil_r.
  - change (dict_keys ((k, v) :: other)) with (k :: dict_keys other) in *.
    inversion Hnd as [|? ? Hnotin Hnd']; subst.
    cbn [fold_left fst snd filter].
    rewrite IH by assumption. rewrite dict_keys_set.
    assert (Hf : filter (fun k0 => negb (dict_contains k0 (dict_set k v d)))
                   (dict_keys other)
                 = filter (fun k0 => negb (dict_contains k0 d))
                     (dict_keys other)).
    { apply filter_ext_in. intros k0 Hk0. rewrite dict_contains_set.
      destruct (pystr_eqb k k0) eqn:He; [|reflexivity].
      apply pystr_eqb_eq in He. subst k0. contradiction. }
    rewrite Hf.
    destruct (dict_contains k d); cbn [negb]; [reflexivity|].
    now rewrite <- app_assoc.
Qed.

(** X13.  Injecting headers (with distinct keys) keeps every header the
    override already had at its place in the mapping, and puts the
    headers with new names after them, in the order given. *)
Theorem X13_inject_headers_order (self : Task.t) (headers : dict pystr) :
  NoDup (dict_keys headers) ->
  let base := materialized unicode_printable zip_kv_pairs self in
  let result :=
    materialized unicode_printable zip_kv_pairs
      (Task_inject_headers unicode_printable zip_kv_pairs self headers) in
  dict_keys (LocustRequest.headers result)
  = dict_keys (LocustRequest.headers base)
    ++ filter (fun k => negb (dict_contains k (LocustRequest.headers base)))
         (dict_keys headers).
Proof.
  intros Hnd base result. unfold result, base, materialized.
  cbn [Task_inject_headers Task_replace_locust_request Task.locust_request
       LocustRequest_replace_headers LocustRequest.headers].
  now apply dict_update_keys.
Qed.

(** X14.  After two injections a header has the value of the second
    injection if that names it, else the value of the first if that
    names it, else the value the override had. *)
Theorem X14_inject_headers_twice (self : Task.t) (h1 h2 : dict pystr)
    (k : pystr) :
  NoDup (dict_keys h1) -> NoDup (dict_keys h2) ->
  let inject := Task_inject_headers unicode_printable zip_kv_pairs in
  let base := materialized unicode_printable zip_kv_pairs self in
  let result :=
    materialized unicode_printable zip_kv_pairs
      (inject (inject self h1) h2) in
  dict_lookup k (LocustRequest.headers result)
  = match dict_lookup k h2 with
    | Some v => Some v
    | None =>
        match dict_lookup k h1 with
        | Some v => Some v
        | None => dict_lookup k (LocustRequest.headers base)
        end
    end.
Proof.
  intros H1 H2 inject base result. unfold result, inject, base, materialized.
  cbn [Task_inject_headers Task_replace_locust_request Task.locust_request
       LocustRequest_replace_headers LocustRequest.headers].
  now rewrite 2 dict_update_lookup.
Qed.

(** *** The pipeline of the legacy model *)

(** The task [Task.from_requests] builds for a request. *)
Definition fresh_task (req : Request.t) : Task.t :=
  {| Task.name := task_name req;
     Task.request := req;
     Task.locust_request := None;
     Task.locust_preprocessing := [];
     Task.locust_postprocessing := [];
     Task.global_code_blocks := [] |}.

Lemma Task_from_requests_fresh (requests : list Request.t) :
  Task_from_requests on_blacklist task_name requests
  = map fresh_task
      (filter (kept on_blacklist) (sorted requests Request.timestamp)).
Proof.
  unfold Task_from_requests.
  induction (sorted requests Request.timestamp) as [|r l IH];
    cbn [flat_map filter map]; [reflexivity|].
  unfold kept at 1.
  destruct (on_blacklist (SplitResult.netloc (Request.url r)));
    cbn [negb app map]; now rewrite IH.
Qed.

Lemma Permutation_filter_both {A} (f : A -> bool) (l l' : list A) :
  Permutation l l' -> Permutation (filter f l) (filter f l').
Proof.
  induction 1 as [|x l l' Hp IH|x y l|l l' l'' H1 IH1 H2 IH2];
    cbn [filter].
  - constructor.
  - destruct (f x); [now constructor|assumption].
  - destruct (f x), (f y); try reflexivity. apply perm_swap.
  - now apply perm_trans with (filter f l').
Qed.

(** X15.  [Task.from_requests] yields exactly one task per Request
    that passes the blacklist, and every task it yields is fresh: named
    by [task_name] of its Request, without an override, without pre- or
    post-processing fragments and without global code blocks. *)
Theorem X15_from_requests_fresh_tasks (requests : list Request.t) :
  let tasks := Task_from_requests on_blacklist task_name requests in
  List.length tasks = List.length (filter (kept on_blacklist) requests)
  /\ Forall (fun t => t = fresh_task (Task.request t)
                      /\ kept on_blacklist (Task.request t) = true
                      /\ In (Task.request t) requests) tasks.
Proof.
  cbv zeta. rewrite Task_from_requests_fresh. split.
  - rewrite length_map. apply Permutation_length, Permutation_filter_both,
      sorted_perm.
  - apply Forall_forall. intros t Ht. apply in_map_iff in Ht.
    destruct Ht as (r & <- & Hr). apply filter_In in Hr.
    destruct Hr as [Hr Hk]. apply In_sorted in Hr. now repeat split.
Qed.

Lemma sorted_of_ascending {A} (key : A -> Z) (l : list A) :
  StronglySorted (key_le key) l -> sorted l key = l.
Proof.
  induction 1 as [|x l Hs IH Hx]; [reflexivity|].
  change (sorted (x :: l) key) with (sorted_insert key x (sorted l key)).
  rewrite IH. destruct l as [|y l']; [reflexivity|].
  cbn [sorted_insert]. inversion Hx as [|? ? Hxy _]; subst.
  unfold key_le in Hxy.
  destruct (Z.leb_spec (key x) (key y)); [reflexivity|lia].
Qed.

(** X16.  On Requests that already come in ascending order of
    timestamp (equal timestamps allowed) the pipeline only filters: the
    tasks are the fresh tasks of the Requests that pass the blacklist, in
    the order of the input. *)
Theorem X16_from_requests_on_ordered_input (requests : list Request.t) :
  StronglySorted (key_le Request.timestamp) requests ->
  Task_from_requests on_blacklist task_name requests
  = map fresh_task (filter (kept on_blacklist) requests).
Proof.
  intros H. rewrite Task_from_requests_fresh.
  now rewrite (sorted_of_ascending H).
Qed.

Lemma ascending_strict {A} (key : A -> Z) (l : list A) :
  StronglySorted (key_le key) l -> NoDup (map key l) ->
  StronglySorted (fun a b => (key a < key b)%Z) l.
Proof.
  induction 1 as [|x l Hs IH Hx]; intros Hnd; [constructor|].
  cbn [map] in Hnd. inversion Hnd as [|? ? Hnotin Hnd']; subst.
  constructor; [now apply IH|].
  rewrite Forall_forall in Hx |- *. intros y Hy.
  specialize (Hx y Hy). unfold key_le in Hx.
  assert (key x <> key y).
  { intros He. apply Hnotin. rewrite He. now apply in_map. }
  lia.
Qed.

Lemma strict_sorted_perm_eq {A} (key : A -> Z) (l1 l2 : list A) :
  StronglySorted (fun a b => (key a < key b)%Z) l1 ->
  StronglySorted (fun a b => (key a < key b)%Z) l2 ->
  Permutation l1 l2 -> l1 = l2.
Proof.
  revert l2. induction l1 as [|a l1 IH]; intros l2 H1 H2 Hp.
  - apply Permutation_nil in Hp. now subst.
  - destruct l2 as [|b l2].
    { apply Permutation_sym, Permutation_nil in Hp. discriminate. }
    inversion H1 as [|? ? Hs1 Hf1]; inversion H2 as [|? ? Hs2 Hf2]; subst.
    assert (Hab : a = b).
    { assert (Ha : In a (b :: l2))
        by (eapply Permutation_in; [exact Hp|now left]).
      assert (Hb : In b (a :: l1))
        by (eapply Permutation_in; [apply Permutation_sym; exact Hp
                                   |now left]).
      destruct Ha as [Ha|Ha]; [now symmetry|].
      destruct Hb as [Hb|Hb]; [assumption|].
      rewrite Forall_forall in Hf1, Hf2.
      specialize (Hf1 b Hb). specialize (Hf2 a Ha). lia. }
    subst b. f_equal. apply IH; try assumption.
    now apply Permutation_cons_inv with a.
Qed.

Lemma sorted_perm_invariant {A} (key : A -> Z) (l l' : list A) :
  Permutation l l' -> NoDup (map key l) -> sorted l key = sorted l' key.
Proof.
  intros Hp Hnd.
  assert (Hs : Permutation (sorted l key) (sorted l' key)).
  { rewrite 2 sorted_perm. exact Hp. }
  apply strict_sorted_perm_eq with (key := key); [| |exact Hs].
  - apply ascending_strict; [apply sorted_ascending|].
    apply Permutation_NoDup with (map key l); [|exact Hnd].
    apply Permutation_map, Permutation_sym, sorted_perm.
  - apply ascending_strict; [apply sorted_ascending|].
    apply Permutation_NoDup with (map key l); [|exact Hnd].
    apply Permutation_map. rewrite sorted_perm. exact Hp.
Qed.

(** X17.  When the timestamps of the Requests are pairwise different,
    the order in which the Requests are handed over does not matter:
    any rearrangement of the input gives the same tasks in the same
    order. *)
Theorem X17_from_requests_input_order (requests requests' : list Request.t) :
  Permutation requests requests' ->
  NoDup (map Request.timestamp requests) ->
  Task_from_requests on_blacklist task_name requests
  = Task_from_requests on_blacklist task_name requests'.
Proof.
  intros Hp Hnd. unfold Task_from_requests.
  now rewrite (sorted_perm_invariant Request.timestamp Hp Hnd).
Qed.

(** *** Conversion to the new model *)

Definition response_assignment (view : Expression) : Statement :=
  Assignment (pystr_of "response") view.

Lemma base_args_lookup (url : Expression) (headers : dict pystr)
    (args : dict Expression) :
  firstn 5 args = base_args url headers ->
  dict_lookup (pystr_of "url") args = Some url
  /\ dict_lookup (pystr_of "headers") args
     = Some (Literal (mapping_value headers)).
Proof.
  intros H. rewrite <- (firstn_skipn 5 args), H. split; reflexivity.
Qed.

(** The conversion of a task that carries an override. *)
Lemma from_task_with_override (task : Task.t) (lr : LocustRequest.t) :
  Task.locust_request task = Some lr ->
  exists t view,
    Task2_from_task task = Ok t
    /\ In (response_assignment view) (Task2.statements t)
    /\ resolve json_loads zip_kv_pairs t view = lreq_to_expr json_loads lr.
Proof.
  intros H. unfold Task2_from_task. cbn [Task2_init py_list bind].
  rewrite H. eexists. eexists. split; [reflexivity|]. split.
  - cbn [Task2.statements]. apply in_or_app. right. now left.
  - cbn. now rewrite H.
Qed.

(** X18.  Mutations made in the legacy model reach the call of the
    converted task: after [inject_headers] the call the deferred binding
    resolves to has the merged headers as its [headers] literal, and
    after [replace_url] it has the new URL text, stripped of its first
    and last character (or of two and one, as a template, with the [f]
    marker), as its [url]. *)
Theorem X18_mutations_reach_the_call (task : Task.t) (headers : dict pystr)
    (url : pystr) :
  let base := materialized unicode_printable zip_kv_pairs task in
  (exists t view,
      Task2_from_task
        (Task_inject_headers unicode_printable zip_kv_pairs task headers)
      = Ok t
      /\ In (response_assignment view) (Task2.statements t)
      /\ forall call,
           resolve json_loads zip_kv_pairs t view = Ok call ->
           exists args,
             call = FunctionCall (client_method (LocustRequest.method base))
                      args
             /\ dict_lookup (pystr_of "headers") args
                = Some (Literal (mapping_value
                                   (dict_update (LocustRequest.headers base)
                                      headers))))
  /\ (exists t view,
         Task2_from_task
           (Task_replace_url unicode_printable zip_kv_pairs task url)
         = Ok t
         /\ In (response_assignment view) (Task2.statements t)
         /\ forall call,
              resolve json_loads zip_kv_pairs t view = Ok call ->
              exists args,
                call = FunctionCall
                         (client_method (LocustRequest.method base)) args
                /\ dict_lookup (pystr_of "url") args
                   = Some (if str_startswith url (pystr_of "f")
                           then FString (slice_to_last 2 url)
                           else Literal (VStr (slice_to_last 1 url)))).
Proof.
  intros base. split.
  - destruct (from_task_with_override
                (Task_inject_headers unicode_printable zip_kv_pairs task
                   headers) eq_refl) as (t & view & Ht & Hin & Hres).
    exists t, view. split; [exact Ht|]. split; [exact Hin|].
    intros call Hc. rewrite Hres, lreq_to_expr_build_call in Hc.
    apply build_call_args in Hc. destruct Hc as (args & -> & Hb & _).
    exists args. split; [reflexivity|].
    now apply base_args_lookup in Hb.
  - destruct (from_task_with_override
                (Task_replace_url unicode_printable zip_kv_pairs task url)
                eq_refl) as (t & view & Ht & Hin & Hres).
    exists t, view. split; [exact Ht|]. split; [exact Hin|].
    intros call Hc. rewrite Hres, lreq_to_expr_build_call in Hc.
    apply build_call_args in Hc. destruct Hc as (args & -> & Hb & _).
    exists args. split; [reflexivity|].
    now apply base_args_lookup in Hb.
Qed.

(** X19.  A task that comes out of [Task.from_requests] converts to a
    Task2 with the same name and Request whose only statement assigns
    [response] to a deferred binding, and that binding resolves to what
    [req_to_expr] builds for the Request. *)
Theorem X19_pipeline_task_converts (requests : list Request.t)
    (task : Task.t) :
  In task (Task_from_requests on_blacklist task_name requests) ->
  exists t view,
    Task2_from_task task = Ok t
    /\ Task2.name t = task_name (Task.request task)
    /\ Task2.request t = Task.request task
    /\ Task2.statements t = [response_assignment view]
    /\ resolve json_loads zip_kv_pairs t view
       = req_to_expr json_loads zip_kv_pairs (Task.request task).
Proof.
  rewrite Task_from_requests_fresh. intros H. apply in_map_iff in H.
  destruct H as (r & <- & _).
  eexists. eexists. split; [reflexivity|]. now repeat split.
Qed.

(** X20.  [Task2.from_task] never fails; the converted task has one
    statement more than the legacy task has fragments, the assignment
    standing right after the pre-processing blocks; and the global code
    blocks of the legacy task are not carried over: the converted task
    has none. *)
Theorem X20_from_task_total (task : Task.t) :
  exists t view,
    Task2_from_task task = Ok t
    /\ List.length (Task2.statements t)
       = S (List.length (Task.locust_preprocessing task)
            + List.length (Task.locust_postprocessing task))
    /\ nth_error (Task2.statements t)
         (List.length (Task.locust_preprocessing task))
       = Some (response_assignment view)
    /\ Task2.global_code_blocks t = [].
Proof.
  unfold Task2_from_task. cbn [Task2_init py_list bind].
  eexists. eexists. split; [reflexivity|].
  cbn [Task2.statements Task2.global_code_blocks map].
  split; [|split; [|reflexivity]].
  - rewrite length_app, length_map. cbn [List.length app].
    rewrite length_map. lia.
  - rewrite nth_error_app2 by (rewrite length_map; lia).
    rewrite length_map, Nat.sub_diag. reflexivity.
Qed.

End Extras.

(** ** More runs on concrete inputs *)

Module MoreSamples.

Import Samples.

Definition post_form : Request.t :=
  mk_request 22 POST (mk_url "example.com" "/items") pd_form page2.

(** [{"mimeType": "text/plain", "text": "a", "params": "a=1"}]: the
    parameters are a string. *)
Definition pd_params_string : dict PyVal :=
  pd_text ++ [(pystr_of "params", VStr (pystr_of "a=1"))].

(** [{"mimeType": "text/plain", "params": [{"name": "a"}]}]: a parameter
    without a value. *)
Definition pd_missing_value : dict PyVal :=
  [(pystr_of "mimeType", VStr (pystr_of "text/plain"));
   (pystr_of "params", VList [VDict [(pystr_of "name", VStr (pystr_of "a"))]])].

(** [{"mimeType": "text/plain", "text": None}] *)
Definition pd_null_text : dict PyVal :=
  [(pystr_of "mimeType", VStr (pystr_of "text/plain"));
   (pystr_of "text", VNone)].

(** [{"mimeType": "application/json; charset=utf-8", "text": "1"}] *)
Definition pd_json_charset : dict PyVal :=
  [(pystr_of "mimeType", VStr (pystr_of "application/json; charset=utf-8"));
   (pystr_of "text", VStr (pystr_of "1"))].

(** A body text that is one lone surrogate, U+D800. *)
Definition pd_surrogate : dict PyVal :=
  [(pystr_of "mimeType", VStr (pystr_of "text/plain"));
   (pystr_of "text", VStr [0xD800%N])].

(** A PUT request whose query has a name that is a lone surrogate. *)
Definition put_bad_query : Request.t :=
  mk_request 23 PUT (mk_url "example.com" "/items") pd_form
    [{| QueryPair.name := [0xD800%N]; QueryPair.value := pystr_of "1" |}].

Definition accept_json : dict pystr :=
  [(pystr_of "Accept", pystr_of "application/json")].

(** The call a request gives, when it gives one. *)
Definition call_of (c : result Expression) : Expression :=
  match c with
  | Ok call => call
  | Raise _ => Literal VNone
  end.

End MoreSamples.

Lemma X2_post_call_witness :
  Runs.req MoreSamples.post_form
  = Ok (FunctionCall (pystr_of "self.client.post")
          (base_args
             (Literal (VStr (pystr_of "http://example.com/items")))
             (Samples.zip_kv_pairs (Request.headers MoreSamples.post_form))
           ++ RequestsPostData_as_kwargs Runs.rpd_form)).
Proof.
  exact (proj1 (X2_post_call Samples.json_loads Samples.zip_kv_pairs
                  MoreSamples.post_form (Runs.derived MoreSamples.post_form)
                  eq_refl eq_refl)).
Defined.

Lemma X3_base_arguments_first_witness :
  exists args,
    MoreSamples.call_of (Runs.req Samples.put_form)
    = FunctionCall (pystr_of "self.client.put") args
    /\ firstn 5 args
       = base_args (Literal (VStr (pystr_of "http://example.com/items")))
           (Samples.zip_kv_pairs (Request.headers Samples.put_form))
    /\ dict_keys (skipn 5 args)
       = filter (fun k => dict_contains k args) payload_keys.
Proof.
  exact (proj1 (X3_base_arguments_first Samples.json_loads
                  Samples.zip_kv_pairs Samples.put_form
                  (Runs.derived Samples.put_form)
                  (MoreSamples.call_of (Runs.req Samples.put_form)))
           eq_refl).
Defined.

Lemma X4_params_not_a_list_witness :
  Runs.har MoreSamples.pd_params_string
  = Raise (invalid_payload MoreSamples.pd_params_string
             (unreadable_params params_not_a_list)).
Proof.
  exact (X4_params_not_a_list Samples.json_loads
           MoreSamples.pd_params_string
           (mime := VStr (pystr_of "text/plain"))
           (rpd1 := rpd_data_only [Byte.x61])
           eq_refl eq_refl eq_refl eq_refl).
Defined.

Lemma X5_params_element_failure_witness :
  Runs.har MoreSamples.pd_missing_value
  = Raise (invalid_payload MoreSamples.pd_missing_value
             (unreadable_params
                (MkExn KeyError [Repr (VStr (pystr_of "value"))] None))).
Proof.
  exact (X5_params_element_failure Samples.json_loads
           MoreSamples.pd_missing_value
           (mime := VStr (pystr_of "text/plain"))
           (rpd1 := RequestsPostData_empty)
           (items := [VDict [(pystr_of "name", VStr (pystr_of "a"))]])
           eq_refl eq_refl eq_refl eq_refl eq_refl).
Defined.

Lemma X7_null_fields_accepted_witness :
  Runs.har MoreSamples.pd_null_text = Ok RequestsPostData_empty
  /\ build_call Samples.json_loads POST (Literal (VStr (pystr_of "u"))) []
       MoreSamples.pd_null_text Samples.page2
     = Ok (FunctionCall (pystr_of "self.client.post")
             (base_args (Literal (VStr (pystr_of "u"))) [])).
Proof.
  exact (X7_null_fields_accepted Samples.json_loads
           MoreSamples.pd_null_text
           (mime := VStr (pystr_of "text/plain"))
           (Literal (VStr (pystr_of "u"))) [] Samples.page2
           eq_refl eq_refl eq_refl eq_refl eq_refl).
Defined.

Lemma X8_other_mime_gives_data_witness :
  RequestsPostData.json (rpd_data_only [Byte.x31]) = None
  /\ exists b,
      utf8_encode (pystr_of "1") = Some b
      /\ RequestsPostData.data (rpd_data_only [Byte.x31])
         = Some (Literal (VBytes b)).
Proof.
  exact (X8_other_mime_gives_data Samples.json_loads
           MoreSamples.pd_json_charset
           (mime := VStr (pystr_of "application/json; charset=utf-8"))
           (rpd := rpd_data_only [Byte.x31])
           eq_refl eq_refl eq_refl).
Defined.

Lemma X9_text_encoding_witness :
  Runs.har MoreSamples.pd_surrogate
  = Raise (invalid_payload MoreSamples.pd_surrogate
             (cannot_encode_text encode_error)).
Proof.
  exact (proj1 (X9_text_encoding Samples.json_loads MoreSamples.pd_surrogate
                  (mime := VStr (pystr_of "text/plain")) (s := [0xD800%N])
                  eq_refl eq_refl eq_refl)
           eq_refl).
Defined.

Lemma bad_query_unencodable :
  Exists unencodable (Request.query MoreSamples.put_bad_query).
Proof. constructor. left. reflexivity. Defined.

Lemma X11_put_query_encode_error_witness :
  Runs.req MoreSamples.put_bad_query = Raise encode_error.
Proof.
  exact (X11_put_query_encode_error Samples.json_loads Samples.zip_kv_pairs
           MoreSamples.put_bad_query (rpd := Runs.rpd_form)
           (lit := Literal Runs.a_1)
           eq_refl eq_refl eq_refl bad_query_unencodable).
Defined.

Lemma X13_inject_headers_order_witness :
  dict_keys
    (LocustRequest.headers
       (materialized Samples.unicode_printable Samples.zip_kv_pairs
          (Task_inject_headers Samples.unicode_printable Samples.zip_kv_pairs
             Samples.legacy_task Runs.x_token)))
  = [pystr_of "Accept"; pystr_of "X-Token"].
Proof.
  exact (X13_inject_headers_order Samples.unicode_printable
           Samples.zip_kv_pairs Samples.legacy_task Runs.x_token
           x_token_keys_distinct).
Defined.

Lemma accept_json_keys_distinct : NoDup (dict_keys MoreSamples.accept_json).
Proof.
  repeat constructor; cbn; intros H;
    repeat (destruct H as [H|H]; [discriminate H|]); exact H.
Defined.

Lemma X14_inject_headers_twice_witness :
  dict_lookup (pystr_of "Accept")
    (LocustRequest.headers
       (materialized Samples.unicode_printable Samples.zip_kv_pairs
          (Task_inject_headers Samples.unicode_printable Samples.zip_kv_pairs
             (Task_inject_headers Samples.unicode_printable
                Samples.zip_kv_pairs Samples.legacy_task Runs.x_token)
             MoreSamples.accept_json)))
  = Some (pystr_of "application/json").
Proof.
  exact (X14_inject_headers_twice Samples.unicode_printable
           Samples.zip_kv_pairs Samples.legacy_task Runs.x_token
           MoreSamples.accept_json (pystr_of "Accept")
           x_token_keys_distinct accept_json_keys_distinct).
Defined.

Lemma early_home_ascending :
  StronglySorted (key_le Request.timestamp)
    [Samples.get_early; Samples.get_home].
Proof.
  repeat constructor. unfold key_le. cbn. lia.
Defined.

Lemma X16_from_requests_on_ordered_input_witness :
  Task_from_requests Samples.on_blacklist Samples.task_name
    [Samples.get_early; Samples.get_home]
  = map (fresh_task Samples.task_name) [Samples.get_early; Samples.get_home].
Proof.
  exact (X16_from_requests_on_ordered_input Samples.on_blacklist
           Samples.task_name early_home_ascending).
Defined.

Lemma home_early_timestamps_distinct :
  NoDup (map Request.timestamp [Samples.get_home; Samples.get_early]).
Proof.
  repeat constructor; cbn; intros H;
    repeat (destruct H as [H|H]; [discriminate H|]); exact H.
Defined.

Lemma X17_from_requests_input_order_witness :
  Task_from_requests Samples.on_blacklist Samples.task_name
    [Samples.get_home; Samples.get_early]
  = Task_from_requests Samples.on_blacklist Samples.task_name
      [Samples.get_early; Samples.get_home].
Proof.
  exact (X17_from_requests_input_order Samples.on_blacklist
           Samples.task_name (perm_swap _ _ _)
           home_early_timestamps_distinct).
Defined.

Lemma X19_pipeline_task_converts_witness :
  exists t view,
    Task2_from_task (fresh_task Samples.task_name Samples.get_home) = Ok t
    /\ Task2.name t = Samples.task_name Samples.get_home
    /\ Task2.request t = Samples.get_home
    /\ Task2.statements t = [response_assignment view]
    /\ resolve Samples.json_loads Samples.zip_kv_pairs t view
       = Runs.req Samples.get_home.
Proof.
  exact (X19_pipeline_task_converts Samples.json_loads Samples.zip_kv_pairs
           Samples.on_blacklist Samples.task_name [Samples.get_home]
           (fresh_task Samples.task_name Samples.get_home)
           (or_introl eq_refl)).
Defined.
